(** * Smart Delivery Drone Agent: the YAML writer and the mission simulation

    A shallow embedding of [smart_drone_agent.py].  Python values are a small
    inductive type, dictionaries are association lists in insertion order,
    console output and stub invocations are collected in a trace, and the file
    system touched by [write_yaml_from_spec] is an interface with a write that
    can fail. *)

From Stdlib Require Import ZArith String Ascii List Lia Bool.
From Stdlib Require Import DecimalString.
From stdpp Require Import gmap strings.
Import ListNotations.

#[local] Set Warnings "-register-all".

Local Open Scope string_scope.
Local Open Scope list_scope.
Local Open Scope Z_scope.

(** ** Python values *)

(** Scalars are the values an f-string renders with [str]. *)
Inductive scalar : Type :=
| SNone
| SBool (b : bool)
| SInt (z : Z)
| SStr (s : string).

(** A value is a scalar, any other object that is neither a [list] nor a
    [dict] (a set, a float, an instance of a class), known by an identifier
    and by its truth value, or a container: a [list], or a [dict] with string
    keys kept in insertion order, as the iteration of [o.items()] sees it. *)
Inductive pyval : Type :=
| PScalar (c : scalar)
| PObject (id : nat) (truth : bool)
| PList (items : list pyval)
| PDict (items : list (string * pyval)).

(** One run of the interpreter, as far as the text of a value depends on it:
    what [str] gives each of the other objects.  It differs from run to run
    for an object printed with its address and for a set of strings, printed
    in the order of hashes that are salted anew in each run. *)
Definition process : Type := nat -> string.

Definition PNone : pyval := PScalar SNone.
Definition PBool (b : bool) : pyval := PScalar (SBool b).
Definition PInt (z : Z) : pyval := PScalar (SInt z).
Definition PStr (s : string) : pyval := PScalar (SStr s).

Definition dict : Type := list (string * pyval).

(** [str(z)] for an [int]. *)
Definition str_int (z : Z) : string := NilZero.string_of_int (Z.to_int z).

(** [str(c)], which is what [f"{c}"] renders. *)
Definition str (c : scalar) : string :=
  match c with
  | SNone => "None"
  | SBool true => "True"
  | SBool false => "False"
  | SInt z => str_int z
  | SStr s => s
  end.

(** Python truth value, as tested by [if x] and [not x]. *)
Definition truthy (v : pyval) : bool :=
  match v with
  | PScalar SNone => false
  | PScalar (SBool b) => b
  | PScalar (SInt z) => negb (z =? 0)
  | PScalar (SStr s) => negb (String.eqb s EmptyString)
  | PObject _ truth => truth
  | PList items => match items with [] => false | _ => true end
  | PDict items => match items with [] => false | _ => true end
  end.

(** [d[k]] as an option, first binding of the key. *)
Fixpoint dict_lookup (d : dict) (k : string) : option pyval :=
  match d with
  | [] => None
  | (k', v) :: rest => if String.eqb k' k then Some v else dict_lookup rest k
  end.

(** [d.get(k)]: the value, or [None] when the key is missing. *)
Definition dict_get (d : dict) (k : string) : pyval :=
  match dict_lookup d k with
  | Some v => v
  | None => PNone
  end.

(** ** The agent specification (module-level constant [AGENT_SPEC]) *)

Definition AGENT_SPEC : pyval :=
  PDict [
    ("name", PStr "Smart Delivery Drone Agent");
    ("role", PStr "Autonomous Last-Mile Delivery Specialist");
    ("goal", PStr "Improve last-mile delivery efficiency in congested urban areas by using autonomous drones to avoid traffic delays, select optimal drop-off points, and deliver packages faster.");
    ("backstory", PStr "You are an advanced aerial delivery system developed for a leading logistics company. Your mission is to deliver packages from the distribution center to customers efficiently and safely, even in complex city environments. You use cutting-edge navigation AI to adapt routes in real time, account for weather changes, avoid dynamic obstacles, and comply with air traffic regulations.");
    ("environment",
      PList [
        PStr "3D city layout (streets, buildings, parks)";
        PStr "Weather conditions (wind, rain, visibility)";
        PStr "Air traffic and drone regulations";
        PStr "GPS and mapping systems";
        PStr "Customer location data";
        PStr "Dynamic obstacles (birds, other drones, construction sites)"]);
    ("sensors",
      PDict [
        ("GPS Module", PStr "real-time positioning & navigation");
        ("LiDAR Sensor", PStr "3D obstacle detection & mapping");
        ("Camera with Computer Vision", PStr "landmark recognition & delivery verification");
        ("Ultrasonic Sensors", PStr "proximity detection during landing");
        ("Weather Sensor Suite", PStr "wind speed, humidity, temperature measurement")]);
    ("actuators",
      PDict [
        ("Quadcopter Rotors", PStr "lift, movement, stability");
        ("Servo Motor Arms", PStr "package pickup & release");
        ("LED Signaling Lights", PStr "ground communication");
        ("Onboard Speaker", PStr "landing/takeoff alerts")]);
    ("performance_metrics",
      PList [
        PStr "Delivery time vs. target time";
        PStr "Successful deliveries without incident";
        PStr "Battery efficiency (distance per charge)";
        PStr "Route optimization score";
        PStr "Customer satisfaction rating"]);
    ("critic",
      PDict [
        ("name", PStr "Operations Control Center AI");
        ("role", PStr "Flight Performance Reviewer");
        ("tasks",
          PList [
            PStr "Monitor all delivery drones in operation";
            PStr "Flag late deliveries or unsafe maneuvers";
            PStr "Recommend route changes due to weather or air traffic";
            PStr "Provide performance feedback for navigation improvement"]);
        ("triggers",
          PDict [
            ("on_mission_complete", PStr "evaluate KPIs, ingest logs");
            ("on_incident_detected", PStr "trigger human operator alert & incident review")])]);
    ("workflow",
      PList [
        PDict [
          ("step", PStr "Pre-flight checks");
          ("description", PStr "Validate drone readiness and mission parameters before takeoff.");
          ("actions",
            PList [
              PDict [("verify_battery_level", PStr "require >= 85% or compute mission-feasible minimum")];
              PDict [("run_sensor_health_checks", PStr "GPS, LiDAR, camera, IMU, weather suite")];
              PDict [("confirm_no_fly_zones_and_permits", PStr "check geofencing & local regs")];
              PDict [("download_mission_plan", PStr "route, payload, customer constraints")]]);
          ("sensors_used",
            PList [
              PStr "GPS Module";
              PStr "Weather Sensor Suite"]);
          ("outputs",
            PList [
              PStr "mission_plan";
              PStr "go/no-go_flag"])];
        PDict [
          ("step", PStr "Route planning & optimization");
          ("description", PStr "Compute safe, efficient route and drop-off point(s).");
          ("actions",
            PList [
              PDict [("query_real_time_weather", PStr "assess wind/gusts on route")];
              PDict [("query_airspace_availability", PStr "check temporary flight restrictions")];
              PDict [("compute_optimal_route", PStr "balance distance, battery, and risk")];
              PDict [("select_preferred_drop_point", PStr "choose safe landing or handoff location")]]);
          ("sensors_used",
            PList [
              PStr "GPS Module";
              PStr "Weather Sensor Suite"]);
          ("outputs",
            PList [
              PStr "flight_path";
              PStr "selected_drop_point"])];
        PDict [
          ("step", PStr "Takeoff & initial ascent");
          ("description", PStr "Execute controlled takeoff and climb to safe transit altitude.");
          ("actions",
            PList [
              PDict [("perform_takeoff_sequence", PStr "rotors spin-up -> vertical ascent")];
              PDict [("initial_position_hold", PStr "confirm stable GPS/IMU lock")];
              PDict [("broadcast_presence", PStr "LED and audio signals if required")]]);
          ("sensors_used",
            PList [
              PStr "GPS Module";
              PStr "IMU";
              PStr "Camera"]);
          ("actuators_used",
            PList [
              PStr "Quadcopter Rotors";
              PStr "LED Signaling Lights"]);
          ("safety_checks",
            PList [
              PDict [("if_GPS_fix_lost", PStr "abort and land")];
              PDict [("if_wind_gt_max_allowed", PStr "delay mission")]])];
        PDict [
          ("step", PStr "En-route navigation & perception loop (continuous)");
          ("description", PStr "Navigate while continuously sensing and reacting to dynamic obstacles.");
          ("actions",
            PList [
              PDict [("sensor_fusion_loop", PStr "LiDAR + camera + GPS + IMU fusion every X ms")];
              PDict [("detect_dynamic_obstacles", PStr "birds, other drones, cranes, temporary structures")];
              PDict [("perform_collision_avoidance", PStr "compute avoidance maneuver and re-route")];
              PDict [("adapt_altitude_and_speed", PStr "based on urban corridor rules & energy constraints")]]);
          ("sensors_used",
            PList [
              PStr "LiDAR Sensor";
              PStr "Camera";
              PStr "GPS Module";
              PStr "IMU"]);
          ("actuators_used",
            PList [
              PStr "Quadcopter Rotors"]);
          ("triggers",
            PList [
              PDict [("if_obstacle_distance_lt_threshold", PStr "invoke avoidance_maneuver")];
              PDict [("if_battery_lt_25_percent", PStr "compute nearest safe landing or return-to-base")];
              PDict [("if_comms_lost_gt_10s", PStr "switch to predefined failsafe behavior (hover or return home)")]])];
        PDict [
          ("step", PStr "Approach & drop-off selection (final 50-100 m)");
          ("description", PStr "Select final landing corridor or safe hand-off spot using local perception.");
          ("actions",
            PList [
              PDict [("local_area_scan", PStr "downward camera + ultrasonic + LiDAR to identify safe landing pad")];
              PDict [("evaluate_crowd_density", PStr "if crowded, choose alternate handoff")];
              PDict [("pick_drop_point", PStr "finalize exact touchdown coordinates")]]);
          ("sensors_used",
            PList [
              PStr "Camera with Computer Vision";
              PStr "Ultrasonic Sensors";
              PStr "LiDAR Sensor"]);
          ("decision_rules",
            PList [
              PDict [("if_no_safe_landing_zone_found", PStr "attempt safe hover + audio prompt and notify customer")];
              PDict [("if_contactless_drop", PStr "release package at designated geofenced spot")]])];
        PDict [
          ("step", PStr "Landing & package delivery");
          ("description", PStr "Execute precision descent, verify delivery, and release package.");
          ("actions",
            PList [
              PDict [("controlled_descent", PStr "using ultrasonic and LiDAR")];
              PDict [("visual_confirmation", PStr "camera verifies ground marker or customer")];
              PDict [("actuate_servo_release", PStr "drop or lower package")];
              PDict [("post_drop_check", PStr "camera confirms package on ground")];
              PDict [("signal_completion", PStr "LED flash and optional audio message")]]);
          ("sensors_used",
            PList [
              PStr "Ultrasonic Sensors";
              PStr "Camera";
              PStr "LiDAR Sensor"]);
          ("actuators_used",
            PList [
              PStr "Servo Motor Arms";
              PStr "Quadcopter Rotors";
              PStr "LED Signaling Lights";
              PStr "Onboard Speaker"]);
          ("safety_checks",
            PList [
              PDict [("if_personnel_under_landing_zone", PStr "abort landing, hover, notify ops")]])];
        PDict [
          ("step", PStr "Post-delivery verification & telemetry upload");
          ("description", PStr "Validate successful delivery and upload mission logs.");
          ("actions",
            PList [
              PDict [("capture_delivery_image_and_metadata", PStr EmptyString)];
              PDict [("send_telemetry_to_operations", PStr "flight log, sensor data, delivery confirmation")];
              PDict [("update_battery_and_maintenance_status", PStr EmptyString)]]);
          ("outputs",
            PList [
              PStr "delivery_proof";
              PStr "flight_logs"])];
        PDict [
          ("step", PStr "Return-to-base or proceed to next mission");
          ("description", PStr "Decide whether to return for recharge/maintenance or continue mission chain.");
          ("actions",
            PList [
              PDict [("evaluate_battery_and_payload_state", PStr EmptyString)];
              PDict [("compute_return_or_next_target", PStr EmptyString)];
              PDict [("perform_return_navigation", PStr EmptyString)]]);
          ("triggers",
            PList [
              PDict [("if_battery_lt_40_percent", PStr "return_to_base")];
              PDict [("if_queued_deliveries_and_battery_ok", PStr "proceed_to_next_mission")]])];
        PDict [
          ("step", PStr "Charging, diagnostics & maintenance");
          ("description", PStr "Automated recharge and health checks after mission.");
          ("actions",
            PList [
              PDict [("dock_and_initiate_charge", PStr EmptyString)];
              PDict [("run_full_diagnostics", PStr "propellers, motors, sensors")];
              PDict [("flag_maintenance_issues_to_ops", PStr EmptyString)]]);
          ("outputs",
            PList [
              PStr "health_report";
              PStr "ready_flag"])];
        PDict [
          ("step", PStr "Critic review & continuous learning loop");
          ("description", PStr "Operations Control Center AI ingests mission data and improves system performance.");
          ("actions",
            PList [
              PDict [("ingest_flight_logs_and_incident_reports", PStr EmptyString)];
              PDict [("evaluate_KPIs_against_thresholds", PStr EmptyString)];
              PDict [("generate_training_data_for_navigation_models", PStr EmptyString)];
              PDict [("recommend_software_updates_or_parameter_tuning", PStr EmptyString)];
              PDict [("flag_human_review_for_incidents", PStr EmptyString)]]);
          ("outputs",
            PList [
              PStr "model_update_jobs";
              PStr "incident_tickets"])]]);
    ("error_handling_and_failsafes",
      PDict [
        ("low_battery_in_flight",
          PDict [
            ("condition", PStr "battery < 20%");
            ("action", PStr "compute_nearest_safe_landing -> land_and_notify_ops")]);
        ("severe_weather_detected",
          PDict [
            ("condition", PStr "gusts > max_operational_gust OR heavy_precipitation");
            ("action", PStr "abort_mission_or_return_to_base -> notify_customers")]);
        ("communication_blackout",
          PDict [
            ("condition", PStr "comms_lost > 30s");
            ("action", PStr "follow_predefined_failsafe (hover_then_return or land_at_safe_site)")]);
        ("obstacle_unavoidable",
          PDict [
            ("condition", PStr "dynamic obstacle within emergency_threshold and avoidance impossible");
            ("action", PStr "execute_emergency_climb_or_descend_and_alert_ops")])]);
    ("notes",
      PList [
        PStr "parameterize thresholds (battery levels, safety distances, wind limits) per local regulations and drone model.";
        PStr "ensure operations control has human-in-loop escalation channels for any safety-critical trigger."])].

(** ** The YAML writer *)

Definition newline : string := String (ascii_of_nat 10) EmptyString.

(** [sep.join(lines)] *)
Fixpoint join (sep : string) (lines : list string) : string :=
  match lines with
  | [] => EmptyString
  | [l] => l
  | l :: rest => l +:+ sep +:+ join sep rest
  end.

(** ["  " * indent] *)
Fixpoint padding (indent : nat) : string :=
  match indent with
  | O => EmptyString
  | S n => "  " +:+ padding n
  end.

(** The local function [fmt] of [write_yaml_from_spec], in a process [r] of the
    interpreter.  The two inner fixpoints are its two [for] loops, each
    appending to [lines]; whatever is neither a [dict] nor a [list] is
    rendered by the f-string, that is by [str]. *)
Fixpoint fmt (r : process) (o : pyval) (indent : nat) {struct o} : string :=
  let pad := padding indent in
  match o with
  | PDict kvs =>
      join newline
        ((fix over_items (kvs : list (string * pyval)) : list string :=
            match kvs with
            | [] => []
            | (k, v) :: rest =>
                match v with
                | PScalar c => [pad +:+ k +:+ ": " +:+ str c]
                | PObject id _ => [pad +:+ k +:+ ": " +:+ r id]
                | _ => [pad +:+ k +:+ ":"; fmt r v (S indent)]
                end ++ over_items rest
            end) kvs)
  | PList items =>
      join newline
        ((fix over_list (items : list pyval) : list string :=
            match items with
            | [] => []
            | item :: rest =>
                match item with
                | PScalar c => [pad +:+ "- " +:+ str c]
                | PObject id _ => [pad +:+ "- " +:+ r id]
                | PDict _ => [pad +:+ "-"; fmt r item (S indent)]
                | PList _ => [pad +:+ "- "; fmt r item (S indent)]
                end ++ over_list rest
            end) items)
  | PScalar c => pad +:+ str c
  | PObject id _ => pad +:+ r id
  end.

(** The file system as [write_yaml_from_spec] uses it.  [write_text] is
    [path.write_text(text)]: it gives the file system after the call and
    whether the call returned; it raises when the directory is missing, when
    the file may not be written or when the text cannot be encoded, and may by
    then have changed the file.  Nothing is said of the other paths, of which
    some may name the same file.  After a call that returned, the file at that
    path reads as the text written. *)
Class FileSystem (files : Type) : Type := {
  write_text : files -> string -> string -> files * bool;
  read_text : files -> string -> option string;
  read_written : forall (s : files) (path text : string),
    snd (write_text s path text) = true ->
    read_text (fst (write_text s path text)) path = Some text
}.

(** Files kept in memory, one for each path string; every write returns. *)
#[global] Instance memory_files : FileSystem (gmap string string).
Proof.
  refine {| write_text := fun s path text => (<[path := text]> s, true);
            read_text := fun s path => s !! path |}.
  intros s path text _. apply lookup_insert_eq.
Defined.

(** A file system on which nothing can be written: every write raises. *)
#[global] Instance no_files : FileSystem unit.
Proof.
  refine {| write_text := fun s _ _ => (s, false);
            read_text := fun _ _ => None |}.
  intros s path text Hreturned. discriminate Hreturned.
Defined.

(** [write_yaml_from_spec(spec, out_path)] in its outside world: a run of the
    interpreter, the file system, and the reading of the clock,
    [datetime.now().isoformat()].  It returns the file system after
    [out_path.write_text(yaml_text)] and the line printed on the console; when
    the write raises, the exception leaves the function before the [print]
    and there is no line. *)
Definition write_yaml_from_spec {files : Type} `{FileSystem files}
    (r : process) (spec : pyval) (out_path : string) (now : string) (s : files)
    : files * option string :=
  let yaml_text := fmt r spec 0 in
  let after := write_text s out_path yaml_text in
  if snd after then
    (fst after, Some ("[" +:+ now +:+ "] Wrote agent YAML spec to: " +:+ out_path))
  else (fst after, None).

(** ** Traces of the simulation *)

(** The module-level functions that [simulate_mission] calls. *)
Inductive fn : Type :=
| Fn_verify_battery_level
| Fn_run_sensor_health_checks
| Fn_compute_optimal_route
| Fn_perform_takeoff_sequence
| Fn_sensor_fusion_loop
| Fn_perform_collision_avoidance
| Fn_find_drop_point_and_land
| Fn_actuate_servo_release
| Fn_post_delivery_upload
| Fn_critic_review_and_learning.

Definition fn_eqb (f g : fn) : bool :=
  match f, g with
  | Fn_verify_battery_level, Fn_verify_battery_level
  | Fn_run_sensor_health_checks, Fn_run_sensor_health_checks
  | Fn_compute_optimal_route, Fn_compute_optimal_route
  | Fn_perform_takeoff_sequence, Fn_perform_takeoff_sequence
  | Fn_sensor_fusion_loop, Fn_sensor_fusion_loop
  | Fn_perform_collision_avoidance, Fn_perform_collision_avoidance
  | Fn_find_drop_point_and_land, Fn_find_drop_point_and_land
  | Fn_actuate_servo_release, Fn_actuate_servo_release
  | Fn_post_delivery_upload, Fn_post_delivery_upload
  | Fn_critic_review_and_learning, Fn_critic_review_and_learning => true
  | _, _ => false
  end.

#[global] Instance fn_eq_dec : EqDecision fn.
Proof. solve_decision. Defined.

(** The Python name of each function. *)
Definition fn_name (f : fn) : string :=
  match f with
  | Fn_verify_battery_level => "verify_battery_level"
  | Fn_run_sensor_health_checks => "run_sensor_health_checks"
  | Fn_compute_optimal_route => "compute_optimal_route"
  | Fn_perform_takeoff_sequence => "perform_takeoff_sequence"
  | Fn_sensor_fusion_loop => "sensor_fusion_loop"
  | Fn_perform_collision_avoidance => "perform_collision_avoidance"
  | Fn_find_drop_point_and_land => "find_drop_point_and_land"
  | Fn_actuate_servo_release => "actuate_servo_release"
  | Fn_post_delivery_upload => "post_delivery_upload"
  | Fn_critic_review_and_learning => "critic_review_and_learning"
  end.

(** What a run does, in order: it enters a function with arguments, or it
    prints its arguments on the console. *)
Inductive event : Type :=
| Call (f : fn) (args : list pyval)
| Print (args : list pyval).

Definition trace : Type := list event.

(** A computation that leaves a trace and returns a value. *)
Definition io (A : Type) : Type := (trace * A)%type.

Definition ret {A : Type} (a : A) : io A := ([], a).

Definition bind {A B : Type} (c : io A) (k : A -> io B) : io B :=
  let '(t1, a) := c in
  let '(t2, b) := k a in
  (t1 ++ t2, b).

Notation "'let*' x ':=' c 'in' k" := (bind c (fun x => k))
  (at level 10, x name, c at level 100, k at level 200).
Notation "c ';;' k" := (bind c (fun _ => k))
  (at level 100, k at level 200, right associativity).

Definition print (args : list pyval) : io unit := ([Print args], tt).

(** A stubbed action: the argument lists of its [print] calls, and the value
    it returns. *)
Definition stub (A : Type) : Type := (list (list pyval) * A)%type.

(** Calling a stubbed action from the mission. *)
Definition invoke {A : Type} (f : fn) (args : list pyval) (s : stub A) : io A :=
  (Call f args :: map Print (fst s), snd s).

Definition run {A : Type} (c : io A) : trace := fst c.

(** The functions entered in a trace, in order. *)
Fixpoint calls (t : trace) : list fn :=
  match t with
  | [] => []
  | Call f _ :: rest => f :: calls rest
  | Print _ :: rest => calls rest
  end.

(** The console lines of a trace, in order (the argument list of each
    [print]). *)
Fixpoint console (t : trace) : list (list pyval) :=
  match t with
  | [] => []
  | Call _ _ :: rest => console rest
  | Print args :: rest => args :: console rest
  end.

(** ** Simulation stubs *)

Definition MIN_REQUIRED : Z := 85.

Definition verify_battery_level (current_pct : Z) : stub pyval :=
  ([[PStr ("Checking battery: " +:+ str_int current_pct +:+ "% (required >= "
           +:+ str_int MIN_REQUIRED +:+ "%)")]],
   PBool (MIN_REQUIRED <=? current_pct)).

Definition run_sensor_health_checks : stub pyval :=
  ([[PStr "Running sensor health checks: GPS OK, LiDAR OK, Camera OK, IMU OK, Weather suite OK"]],
   PBool true).

Definition compute_optimal_route (origin destination : string) (battery_pct : Z)
    : stub pyval :=
  ([[PStr ("Computing optimal route from " +:+ origin +:+ " to " +:+ destination
           +:+ " (battery " +:+ str_int battery_pct +:+ "%)")]],
   PDict [("path", PList [PStr origin; PStr "waypoint1"; PStr "waypoint2";
                          PStr destination]);
          ("eta_min", PInt 12)]).

Definition perform_takeoff_sequence : stub pyval :=
  ([[PStr "Performing takeoff sequence: rotors up -> ascending to transit altitude"]],
   PBool true).

Definition sensor_fusion_loop : stub dict :=
  ([[PStr "Sensor fusion loop: LiDAR+Camera+GPS+IMU combined â€” no immediate hazards detected"]],
   [("obstacle_detected", PBool false)]).

Definition perform_collision_avoidance : stub pyval :=
  ([[PStr "Performing collision avoidance maneuver and re-routing"]], PBool true).

Definition find_drop_point_and_land : stub pyval :=
  ([[PStr "Scanning local area, choosing drop point, descending with ultrasonic/LiDAR assist"]],
   PBool true).

Definition actuate_servo_release : stub pyval :=
  ([[PStr "Actuating servo to release package"]], PBool true).

Definition post_delivery_upload (flight_logs : pyval) : stub pyval :=
  ([[PStr "Uploading telemetry and delivery proof to Operations Control Center"]],
   PBool true).

Definition critic_review_and_learning (flight_logs : pyval) : stub pyval :=
  ([[PStr "Operations Control Center AI ingesting logs and generating model updates if needed"]],
   PDict [("kpi_ok", PBool true)]).

(** ** The mission *)

(** [simulate_mission] reaches its actions through module-level names; the
    source's docstring asks to replace the stubs with real integrations.  The
    mission is therefore written over any implementation of the stubbed
    actions; [source_actions] below is the one of the source.  The battery
    check [verify_battery_level] carries the threshold and is kept as it is. *)
Module Actions.
Record t : Type := Build {
  run_sensor_health_checks : stub pyval;
  compute_optimal_route : string -> string -> Z -> stub pyval;
  perform_takeoff_sequence : stub pyval;
  sensor_fusion_loop : stub dict;
  perform_collision_avoidance : stub pyval;
  find_drop_point_and_land : stub pyval;
  actuate_servo_release : stub pyval;
  post_delivery_upload : pyval -> stub pyval;
  critic_review_and_learning : pyval -> stub pyval
}.
End Actions.

Definition source_actions : Actions.t :=
  {| Actions.run_sensor_health_checks := run_sensor_health_checks;
     Actions.compute_optimal_route := compute_optimal_route;
     Actions.perform_takeoff_sequence := perform_takeoff_sequence;
     Actions.sensor_fusion_loop := sensor_fusion_loop;
     Actions.perform_collision_avoidance := perform_collision_avoidance;
     Actions.find_drop_point_and_land := find_drop_point_and_land;
     Actions.actuate_servo_release := actuate_servo_release;
     Actions.post_delivery_upload := post_delivery_upload;
     Actions.critic_review_and_learning := critic_review_and_learning |}.

(** The [logs] dictionary built at the end of the mission. *)
Definition mission_logs (route : pyval) (battery : Z) : pyval :=
  PDict [("route", route); ("battery_end", PInt (battery - 20));
         ("delivered", PBool true)].

(** The body of [simulate_mission], with its local [battery] as a parameter.
    Each [return] of the source ends the computation in its branch. *)
Definition mission (act : Actions.t) (battery : Z) : io unit :=
  print [PStr "=== SIMULATING MISSION ==="] ;;
  let origin := "DistributionCenterA" in
  let destination := "Customer_123_MainSt" in
  let* battery_ok :=
    invoke Fn_verify_battery_level [PInt battery] (verify_battery_level battery) in
  if negb (truthy battery_ok) then
    print [PStr "Abort: battery insufficient."]
  else
  let* sensors_ok :=
    invoke Fn_run_sensor_health_checks [] (Actions.run_sensor_health_checks act) in
  if negb (truthy sensors_ok) then
    print [PStr "Abort: sensor health failed."]
  else
  let* route :=
    invoke Fn_compute_optimal_route [PStr origin; PStr destination; PInt battery]
      (Actions.compute_optimal_route act origin destination battery) in
  print [PStr "Planned route:"; route] ;;
  let* takeoff_ok :=
    invoke Fn_perform_takeoff_sequence [] (Actions.perform_takeoff_sequence act) in
  if negb (truthy takeoff_ok) then
    print [PStr "Abort: takeoff failed."]
  else
  (* en-route loop (single iteration for demo) *)
  let* fusion := invoke Fn_sensor_fusion_loop [] (Actions.sensor_fusion_loop act) in
  (if truthy (dict_get fusion "obstacle_detected") then
     invoke Fn_perform_collision_avoidance []
       (Actions.perform_collision_avoidance act) ;; ret tt
   else ret tt) ;;
  (* approach and landing *)
  let* landed :=
    invoke Fn_find_drop_point_and_land [] (Actions.find_drop_point_and_land act) in
  if negb (truthy landed) then
    print [PStr "Abort: landing failed."]
  else
  let* released :=
    invoke Fn_actuate_servo_release [] (Actions.actuate_servo_release act) in
  (if negb (truthy released) then
     print [PStr "Warning: release failed; marking for manual follow-up."]
   else
     print [PStr "Package released successfully."]) ;;
  let logs := mission_logs route battery in
  invoke Fn_post_delivery_upload [logs] (Actions.post_delivery_upload act logs) ;;
  invoke Fn_critic_review_and_learning [logs]
    (Actions.critic_review_and_learning act logs) ;;
  print [PStr "=== MISSION COMPLETE ==="].

(** [simulate_mission()]: the stubs of the source and [battery = 92]. *)
Definition simulate_mission : io unit := mission source_actions 92.

(** ** Reading the agent specification *)

Definition as_dict (v : pyval) : dict :=
  match v with PDict d => d | _ => [] end.

Definition as_list (v : pyval) : list pyval :=
  match v with PList l => l | _ => [] end.

Definition as_string (v : pyval) : string :=
  match v with PScalar (SStr s) => s | _ => EmptyString end.

(** [AGENT_SPEC["workflow"]], the ordered steps of a mission. *)
Definition workflow : list pyval :=
  as_list (dict_get (as_dict AGENT_SPEC) "workflow").

Definition step_name (step : pyval) : string :=
  as_string (dict_get (as_dict step) "step").

(** The names of the actions a step lists (each action is a one-entry
    dictionary from the action's name to its description). *)
Definition step_actions (step : pyval) : list string :=
  flat_map (fun a => map fst (as_dict a))
           (as_list (dict_get (as_dict step) "actions")).

(** The names of the steps that list an action of the given name. *)
Definition steps_of (action : string) : list string :=
  map step_name
      (List.filter (fun step => existsb (String.eqb action) (step_actions step))
              workflow).

(** A function of the simulation that belongs to the pre-flight step. *)
Definition preflight_fn (f : fn) : bool :=
  existsb (String.eqb "Pre-flight checks") (steps_of (fn_name f)).

(** The run went past the pre-flight checks: it entered a function that is
    not one of them. *)
Definition past_preflight (t : trace) : bool :=
  existsb (fun f => negb (preflight_fn f)) (calls t).

(** The last console line of a run. *)
Definition last_line (t : trace) : option (list pyval) := last (console t).

(** The argument lists with which a function was entered, in order. *)
Fixpoint calls_of (f : fn) (t : trace) : list (list pyval) :=
  match t with
  | [] => []
  | Call g args :: rest =>
      if fn_eqb f g then args :: calls_of f rest else calls_of f rest
  | Print _ :: rest => calls_of f rest
  end.

(** The order in which the body of [simulate_mission] mentions its actions. *)
Definition program_order : list fn :=
  [Fn_verify_battery_level; Fn_run_sensor_health_checks;
   Fn_compute_optimal_route; Fn_perform_takeoff_sequence;
   Fn_sensor_fusion_loop; Fn_perform_collision_avoidance;
   Fn_find_drop_point_and_land; Fn_actuate_servo_release;
   Fn_post_delivery_upload; Fn_critic_review_and_learning].

(** [needle in hay] for strings. *)
Definition contains (needle hay : string) : bool :=
  match String.index 0 needle hay with
  | Some _ => true
  | None => false
  end.

Definition digit_of (c : ascii) : option Z :=
  let n := Z.of_nat (nat_of_ascii c) in
  if (48 <=? n) && (n <=? 57) then Some (n - 48) else None.

(** The first decimal number written in a string, if any. *)
Fixpoint first_number_from (acc : option Z) (s : string) : option Z :=
  match s with
  | EmptyString => acc
  | String c rest =>
      match digit_of c, acc with
      | Some d, None => first_number_from (Some d) rest
      | Some d, Some n => first_number_from (Some (10 * n + d)) rest
      | None, None => first_number_from None rest
      | None, Some n => Some n
      end
  end.

Definition first_number (s : string) : option Z := first_number_from None s.

(** Every key/value entry of every dictionary nested in a value, with the
    scalar values rendered as strings; entries holding containers are
    descended into. *)
Fixpoint entries (v : pyval) : list (string * string) :=
  match v with
  | PScalar _ => []
  | PObject _ _ => []
  | PList items => flat_map entries items
  | PDict kvs =>
      (fix over (kvs : list (string * pyval)) : list (string * string) :=
         match kvs with
         | [] => []
         | (k, PScalar c) :: rest => (k, str c) :: over rest
         | (_, w) :: rest => entries w ++ over rest
         end) kvs
  end.

(** The entries of the specification that speak of lost communications,
    in its key or in its text. *)
Definition comms_lost_rules (spec : pyval) : list (string * string) :=
  List.filter (fun kv => contains "comms_lost" (fst kv) || contains "comms_lost" (snd kv))
         (entries spec).

(** The duration, in seconds, each of them names. *)
Definition comms_lost_thresholds (spec : pyval) : list (option Z) :=
  map (fun kv => if contains "comms_lost" (fst kv) then first_number (fst kv)
                 else first_number (snd kv))
      (comms_lost_rules spec).

(** A rule written for communications lost for more than its threshold is
    met by a duration, in seconds, above the threshold. *)
Definition exceeded (threshold : option Z) (seconds : Z) : bool :=
  match threshold with
  | Some n => n <? seconds
  | None => false
  end.

(** ** What the pre-flight claims speak of *)

(** The facts of the world a pre-flight gate could depend on. *)
Record conditions : Type := {
  battery_pct : Z;
  sensors_healthy : bool;
  no_fly_zone_clear : bool
}.

(** The same actions, with a sensor health check that prints the same lines
    and returns the given value. *)
Definition with_sensor_health (healthy : pyval) (act : Actions.t) : Actions.t :=
  {| Actions.run_sensor_health_checks :=
       (fst (Actions.run_sensor_health_checks act), healthy);
     Actions.compute_optimal_route := Actions.compute_optimal_route act;
     Actions.perform_takeoff_sequence := Actions.perform_takeoff_sequence act;
     Actions.sensor_fusion_loop := Actions.sensor_fusion_loop act;
     Actions.perform_collision_avoidance := Actions.perform_collision_avoidance act;
     Actions.find_drop_point_and_land := Actions.find_drop_point_and_land act;
     Actions.actuate_servo_release := Actions.actuate_servo_release act;
     Actions.post_delivery_upload := Actions.post_delivery_upload act;
     Actions.critic_review_and_learning := Actions.critic_review_and_learning act |}.

(** The mission of the source under given conditions: the battery level and
    the answer of the sensor health check are those of the conditions. *)
Definition mission_under (c : conditions) : io unit :=
  mission (with_sensor_health (PBool (sensors_healthy c)) source_actions)
          (battery_pct c).

(** The source's actions with a servo release that reports failure. *)
Definition release_fails : Actions.t :=
  {| Actions.run_sensor_health_checks := run_sensor_health_checks;
     Actions.compute_optimal_route := compute_optimal_route;
     Actions.perform_takeoff_sequence := perform_takeoff_sequence;
     Actions.sensor_fusion_loop := sensor_fusion_loop;
     Actions.perform_collision_avoidance := perform_collision_avoidance;
     Actions.find_drop_point_and_land := find_drop_point_and_land;
     Actions.actuate_servo_release := (fst actuate_servo_release, PBool false);
     Actions.post_delivery_upload := post_delivery_upload;
     Actions.critic_review_and_learning := critic_review_and_learning |}.

(** The source's actions with a telemetry upload that reports failure. *)
Definition upload_fails : Actions.t :=
  {| Actions.run_sensor_health_checks := run_sensor_health_checks;
     Actions.compute_optimal_route := compute_optimal_route;
     Actions.perform_takeoff_sequence := perform_takeoff_sequence;
     Actions.sensor_fusion_loop := sensor_fusion_loop;
     Actions.perform_collision_avoidance := perform_collision_avoidance;
     Actions.find_drop_point_and_land := find_drop_point_and_land;
     Actions.actuate_servo_release := actuate_servo_release;
     Actions.post_delivery_upload :=
       fun logs => (fst (post_delivery_upload logs), PBool false);
     Actions.critic_review_and_learning := critic_review_and_learning |}.

(** Two evaluations of the sensor fusion stub, one after the other. *)
Definition fusion_twice : io (dict * dict) :=
  let* first := invoke Fn_sensor_fusion_loop [] sensor_fusion_loop in
  let* second := invoke Fn_sensor_fusion_loop [] sensor_fusion_loop in
  ret (first, second).

(** The outcomes of the stubbed actions, as the mission tests them. *)
Definition sensors_pass (act : Actions.t) : bool :=
  truthy (snd (Actions.run_sensor_health_checks act)).

Definition takeoff_succeeds (act : Actions.t) : bool :=
  truthy (snd (Actions.perform_takeoff_sequence act)).

Definition obstacle_detected (act : Actions.t) : bool :=
  truthy (dict_get (snd (Actions.sensor_fusion_loop act)) "obstacle_detected").

Definition landing_succeeds (act : Actions.t) : bool :=
  truthy (snd (Actions.find_drop_point_and_land act)).

Definition release_succeeds (act : Actions.t) : bool :=
  truthy (snd (Actions.actuate_servo_release act)).

(** Conditions with a sound battery and healthy sensors inside a closed
    no-fly zone. *)
Definition no_fly_zone_closed : conditions :=
  {| battery_pct := 92; sensors_healthy := true; no_fly_zone_clear := false |}.

(** A stub without side effect prints nothing. *)
Definition side_effect_free {A : Type} (s : stub A) : Prop := fst s = [].

(** The route and the logs of the mission as the source runs it. *)
Definition nominal_route : pyval :=
  snd (compute_optimal_route "DistributionCenterA" "Customer_123_MainSt" 92).

Definition nominal_logs : pyval := mission_logs nominal_route 92.

(** The steps of the workflow of which a run entered an action, by name. *)
Definition steps_entered (t : trace) : list string :=
  map step_name
      (List.filter (fun step =>
                 existsb (fun f => existsb (String.eqb (fn_name f))
                                           (step_actions step))
                         (calls t))
              workflow).

(** A console line that reports an abort. *)
Definition abort_line (args : list pyval) : bool :=
  match args with
  | PScalar (SStr s) :: _ => String.prefix "Abort" s
  | _ => false
  end.

(** ** The failsafe supervisor *)

Module Failsafe.

(** Modelled from the spec: the directives of [MissionState.pending_directive]
    and their severity order (section 3 of the specification); the source has
    no directive type. *)
Inductive directive : Type :=
| Reroute
| Hover
| ReturnToBase
| Abort
| EmergencyManeuver.

(** Modelled from the spec: the severity order
    EmergencyManeuver > Abort > ReturnToBase > Hover > Reroute, as a rank. *)
Definition severity (d : directive) : nat :=
  match d with
  | Reroute => 1
  | Hover => 2
  | ReturnToBase => 3
  | Abort => 4
  | EmergencyManeuver => 5
  end.

(** Modelled from the spec: the severity of the outstanding directive, with
    no directive outstanding below every directive. *)
Definition pending_severity (pending : option directive) : nat :=
  match pending with
  | None => 0
  | Some d => severity d
  end.

(** Modelled from the spec: the update of FailsafeSupervisor (section 4.2),
    which is absent from the source: update [pending_directive] only if the
    new severity is greater than or equal to the outstanding one. *)
Definition post (pending : option directive) (d : directive) : option directive :=
  if (pending_severity pending <=? severity d)%nat then Some d else pending.

(** Modelled from the spec: the values [pending_directive] takes while the
    supervisor posts a sequence of directives and the controller consumes
    none of them, starting with the value before the first post. *)
Fixpoint history (pending : option directive) (posted : list directive)
    : list (option directive) :=
  pending ::
  match posted with
  | [] => []
  | d :: rest => history (post pending d) rest
  end.

End Failsafe.

(** The route the mission plans, as its route action returns it. *)
Definition planned_route (act : Actions.t) (battery : Z) : pyval :=
  snd (Actions.compute_optimal_route act "DistributionCenterA"
         "Customer_123_MainSt" battery).

(** The four actions whose failure ends the mission all succeed. *)
Definition gates_pass (act : Actions.t) (battery : Z) : Prop :=
  85 <= battery /\ sensors_pass act = true /\ takeoff_succeeds act = true /\
  landing_succeeds act = true.

(** The source's actions with a sensor fusion whose snapshot has no
    [obstacle_detected] key. *)
Definition fusion_without_key : Actions.t :=
  {| Actions.run_sensor_health_checks := run_sensor_health_checks;
     Actions.compute_optimal_route := compute_optimal_route;
     Actions.perform_takeoff_sequence := perform_takeoff_sequence;
     Actions.sensor_fusion_loop := (fst sensor_fusion_loop, [("altitude", PInt 40)]);
     Actions.perform_collision_avoidance := perform_collision_avoidance;
     Actions.find_drop_point_and_land := find_drop_point_and_land;
     Actions.actuate_servo_release := actuate_servo_release;
     Actions.post_delivery_upload := post_delivery_upload;
     Actions.critic_review_and_learning := critic_review_and_learning |}.

(** A dictionary and a list that hold scalars only. *)
Definition flat_dict (entries : list (string * scalar)) : pyval :=
  PDict (map (fun '(k, c) => (k, PScalar c)) entries).

Definition flat_list (items : list scalar) : pyval :=
  PList (map PScalar items).

(** ** The lines of the YAML text *)

(** What one entry of a dictionary appends to [lines] in [fmt]. *)
Definition dict_item_lines (r : process) (indent : nat) (kv : string * pyval)
    : list string :=
  match snd kv with
  | PScalar c => [padding indent +:+ fst kv +:+ ": " +:+ str c]
  | PObject id _ => [padding indent +:+ fst kv +:+ ": " +:+ r id]
  | v => [padding indent +:+ fst kv +:+ ":"; fmt r v (S indent)]
  end.

(** What one item of a list appends to [lines] in [fmt]. *)
Definition list_item_lines (r : process) (indent : nat) (item : pyval)
    : list string :=
  match item with
  | PScalar c => [padding indent +:+ "- " +:+ str c]
  | PObject id _ => [padding indent +:+ "- " +:+ r id]
  | PDict _ => [padding indent +:+ "-"; fmt r item (S indent)]
  | PList _ => [padding indent +:+ "- "; fmt r item (S indent)]
  end.

(** The text of [fmt] line by line, with the lines of the nested values in
    place of their joined text.  An empty container, whose joined text is
    empty, stands for one empty line. *)
Fixpoint out_lines (r : process) (o : pyval) (indent : nat) {struct o}
    : list string :=
  let pad := padding indent in
  match o with
  | PScalar c => [pad +:+ str c]
  | PObject id _ => [pad +:+ r id]
  | PDict [] => [EmptyString]
  | PDict kvs =>
      (fix over_items (kvs : list (string * pyval)) : list string :=
         match kvs with
         | [] => []
         | (k, v) :: rest =>
             match v with
             | PScalar c => [pad +:+ k +:+ ": " +:+ str c]
             | PObject id _ => [pad +:+ k +:+ ": " +:+ r id]
             | _ => (pad +:+ k +:+ ":") :: out_lines r v (S indent)
             end ++ over_items rest
         end) kvs
  | PList [] => [EmptyString]
  | PList items =>
      (fix over_list (items : list pyval) : list string :=
         match items with
         | [] => []
         | item :: rest =>
             match item with
             | PScalar c => [pad +:+ "- " +:+ str c]
             | PObject id _ => [pad +:+ "- " +:+ r id]
             | PDict _ => (pad +:+ "-") :: out_lines r item (S indent)
             | PList _ => (pad +:+ "- ") :: out_lines r item (S indent)
             end ++ over_list rest
         end) items
  end.

(** Two lists of lines that are not empty and give the same joined text
    whatever lines follow them. *)
Definition same_joined (sep : string) (l1 l2 : list string) : Prop :=
  l1 <> [] /\ l2 <> [] /\
  forall r1 r2 : list string,
    (r1 = [] <-> r2 = []) -> join sep r1 = join sep r2 ->
    join sep (l1 ++ r1) = join sep (l2 ++ r2).

(** A line is at a depth when it is empty or starts with the padding of that
    depth. *)
Definition at_depth (indent : nat) (line : string) : bool :=
  match line with
  | EmptyString => true
  | _ => String.prefix (padding indent) line
  end.

(** A line of the text, one level deeper. *)
Definition indented (line : string) : string :=
  match line with
  | EmptyString => EmptyString
  | _ => "  " +:+ line
  end.

(** The lines of one entry of a dictionary and of one item of a list. *)
Definition dict_item_out (r : process) (indent : nat) (kv : string * pyval)
    : list string :=
  match snd kv with
  | PScalar c => [padding indent +:+ fst kv +:+ ": " +:+ str c]
  | PObject id _ => [padding indent +:+ fst kv +:+ ": " +:+ r id]
  | v => (padding indent +:+ fst kv +:+ ":") :: out_lines r v (S indent)
  end.

Definition list_item_out (r : process) (indent : nat) (item : pyval) : list string :=
  match item with
  | PScalar c => [padding indent +:+ "- " +:+ str c]
  | PObject id _ => [padding indent +:+ "- " +:+ r id]
  | PDict _ => (padding indent +:+ "-") :: out_lines r item (S indent)
  | PList _ => (padding indent +:+ "- ") :: out_lines r item (S indent)
  end.

(** A value with the types of its scalars and objects taken away: each is the
    string it prints as in the run. *)
Fixpoint erase (r : process) (o : pyval) : pyval :=
  match o with
  | PScalar c => PStr (str c)
  | PObject id _ => PStr (r id)
  | PList items => PList (map (erase r) items)
  | PDict kvs => PDict (map (fun '(k, v) => (k, erase r v)) kvs)
  end.



(** A dictionary holding a set of sensor names, and two runs that print the
    set in different orders. *)
Definition spec_with_a_set : pyval :=
  PDict [("name", PStr "drone"); ("sensors", PObject 0 true)].

Definition gps_first : process := fun _ => "{'gps', 'lidar'}".


(** [text.split(newline)]: the lines of a text. *)
Fixpoint text_lines (text : string) : list string :=
  match text with
  | EmptyString => [EmptyString]
  | String c rest =>
      if Ascii.eqb c (ascii_of_nat 10) then EmptyString :: text_lines rest
      else match text_lines rest with
           | line :: lines => String c line :: lines
           | [] => [String c EmptyString]
           end
  end.

(** A string without a newline. *)
Fixpoint no_newline (s : string) : bool :=
  match s with
  | EmptyString => true
  | String c rest => negb (Ascii.eqb c (ascii_of_nat 10)) && no_newline rest
  end.

(** A value none of whose keys, scalars and objects prints with a newline:
    each entry and each item then takes one line of the text. *)
Fixpoint single_line (r : process) (o : pyval) : bool :=
  match o with
  | PScalar c => no_newline (str c)
  | PObject id _ => no_newline (r id)
  | PList items => forallb (single_line r) items
  | PDict kvs => forallb (fun '(k, v) => no_newline k && single_line r v) kvs
  end.

Definition is_container (o : pyval) : bool :=
  match o with
  | PList _ | PDict _ => true
  | _ => false
  end.

(** * Properties *)

(** ** Traces *)

Lemma calls_app (t1 t2 : trace) : calls (t1 ++ t2) = calls t1 ++ calls t2.
Proof.
  induction t1 as [|[f args|args] t1 IH]; simpl; [reflexivity| |assumption].
  now rewrite IH.
Qed.

Lemma calls_prints (lines : list (list pyval)) : calls (map Print lines) = [].
Proof. induction lines; simpl; auto. Qed.

Lemma console_app (t1 t2 : trace) : console (t1 ++ t2) = console t1 ++ console t2.
Proof.
  induction t1 as [|[f args|args] t1 IH]; simpl; [reflexivity|assumption|].
  now rewrite IH.
Qed.

Lemma console_prints (lines : list (list pyval)) : console (map Print lines) = lines.
Proof. induction lines; simpl; [reflexivity|]. now f_equal. Qed.

Lemma calls_of_app (f : fn) (t1 t2 : trace) :
  calls_of f (t1 ++ t2) = calls_of f t1 ++ calls_of f t2.
Proof.
  induction t1 as [|[g args|args] t1 IH]; simpl; [reflexivity| |assumption].
  destruct (fn_eqb f g); simpl; now rewrite IH.
Qed.

Lemma calls_of_prints (f : fn) (lines : list (list pyval)) :
  calls_of f (map Print lines) = [].
Proof. induction lines; simpl; auto. Qed.

Lemma verify_battery_level_result (b : Z) :
  truthy (snd (verify_battery_level b)) = (85 <=? b).
Proof. reflexivity. Qed.

(** ** The shape of every run *)

Ltac trace_norm :=
  repeat (rewrite ?calls_app, ?console_app, ?calls_of_app,
            ?calls_prints, ?console_prints, ?calls_of_prints;
          cbn [calls console calls_of fn_eqb app fst snd]).

Ltac run_mission :=
  unfold mission, run, bind, invoke, print, ret, verify_battery_level,
    MIN_REQUIRED, PBool;
  cbn -[str_int String.append Z.leb dict_get].

Ltac by_outcome c := destruct c; cbn -[str_int String.append Z.leb dict_get].

(** The functions a run enters, by the outcomes of its actions. *)
Lemma mission_calls (act : Actions.t) (b : Z) :
  calls (run (mission act b)) =
  Fn_verify_battery_level ::
  if negb (85 <=? b) then [] else
  Fn_run_sensor_health_checks ::
  if negb (sensors_pass act) then [] else
  Fn_compute_optimal_route :: Fn_perform_takeoff_sequence ::
  if negb (takeoff_succeeds act) then [] else
  Fn_sensor_fusion_loop ::
  (if obstacle_detected act then [Fn_perform_collision_avoidance] else []) ++
  Fn_find_drop_point_and_land ::
  if negb (landing_succeeds act) then [] else
  [Fn_actuate_servo_release; Fn_post_delivery_upload;
   Fn_critic_review_and_learning].
Proof.
  unfold sensors_pass, takeoff_succeeds, obstacle_detected, landing_succeeds.
  run_mission.
  by_outcome (85 <=? b); [|now trace_norm].
  by_outcome (truthy (snd (Actions.run_sensor_health_checks act)));
    [|now trace_norm].
  by_outcome (truthy (snd (Actions.perform_takeoff_sequence act)));
    [|now trace_norm].
  by_outcome (truthy (dict_get (snd (Actions.sensor_fusion_loop act))
                               "obstacle_detected"));
    by_outcome (truthy (snd (Actions.find_drop_point_and_land act)));
    try by_outcome (truthy (snd (Actions.actuate_servo_release act)));
    now trace_norm.
Qed.

Ltac last_norm :=
  unfold last_line; trace_norm;
  first [ reflexivity
        | repeat rewrite app_comm_cons; repeat rewrite app_assoc;
          apply last_snoc ].

(** The line a run ends on: the abort report of the first action that
    reported failure, or the completion banner. *)
Lemma mission_last_line (act : Actions.t) (b : Z) :
  last_line (run (mission act b)) =
  Some [PStr (if negb (85 <=? b) then "Abort: battery insufficient."
              else if negb (sensors_pass act) then "Abort: sensor health failed."
              else if negb (takeoff_succeeds act) then "Abort: takeoff failed."
              else if negb (landing_succeeds act) then "Abort: landing failed."
              else "=== MISSION COMPLETE ===")].
Proof.
  unfold sensors_pass, takeoff_succeeds, landing_succeeds.
  run_mission.
  by_outcome (85 <=? b); [|now last_norm].
  by_outcome (truthy (snd (Actions.run_sensor_health_checks act)));
    [|now last_norm].
  by_outcome (truthy (snd (Actions.perform_takeoff_sequence act)));
    [|now last_norm].
  by_outcome (truthy (dict_get (snd (Actions.sensor_fusion_loop act))
                               "obstacle_detected"));
    by_outcome (truthy (snd (Actions.find_drop_point_and_land act)));
    try by_outcome (truthy (snd (Actions.actuate_servo_release act)));
    now last_norm.
Qed.

(** The release of the package is reported on the console, and a failed
    release is a warning. *)
Lemma mission_release_line (act : Actions.t) (b : Z) :
  85 <= b -> sensors_pass act = true -> takeoff_succeeds act = true ->
  landing_succeeds act = true ->
  In [PStr (if release_succeeds act then "Package released successfully."
            else "Warning: release failed; marking for manual follow-up.")]
     (console (run (mission act b))).
Proof.
  unfold sensors_pass, takeoff_succeeds, landing_succeeds, release_succeeds.
  intros Hb Hs Ht Hl. apply Z.leb_le in Hb.
  run_mission. rewrite Hb, Hs. cbn -[str_int String.append Z.leb dict_get].
  rewrite Ht. cbn -[str_int String.append Z.leb dict_get].
  by_outcome (truthy (dict_get (snd (Actions.sensor_fusion_loop act))
                               "obstacle_detected"));
    rewrite Hl; cbn -[str_int String.append Z.leb dict_get];
    by_outcome (truthy (snd (Actions.actuate_servo_release act)));
    trace_norm; repeat (rewrite ?in_app_iff; cbn [In]); tauto.
Qed.

Lemma past_preflight_run (act : Actions.t) (b : Z) :
  past_preflight (run (mission act b)) = (85 <=? b) && sensors_pass act.
Proof.
  unfold past_preflight. rewrite mission_calls.
  destruct (85 <=? b), (sensors_pass act), (takeoff_succeeds act),
    (obstacle_detected act), (landing_succeeds act); vm_compute; reflexivity.
Qed.

(** ** The pre-flight gate *)

(** C2. The battery check passes exactly from 85 percent up, and with the
    sensor health check passing the mission goes past the pre-flight checks
    exactly from 85 percent up: at 84 it reports the abort and stays, at 85 it
    proceeds. *)
Theorem battery_gate_is_85 (act : Actions.t) (b : Z) :
  sensors_pass act = true ->
  MIN_REQUIRED = 85 /\
  (truthy (snd (verify_battery_level b)) = true <-> 85 <= b) /\
  (past_preflight (run (mission act b)) = true <-> 85 <= b) /\
  past_preflight (run (mission act 84)) = false /\
  last_line (run (mission act 84)) = Some [PStr "Abort: battery insufficient."] /\
  past_preflight (run (mission act 85)) = true.
Proof.
  intros Hs. split; [reflexivity|].
  split; [rewrite verify_battery_level_result; apply Z.leb_le|].
  rewrite !past_preflight_run, Hs, mission_last_line.
  repeat split; try reflexivity.
  - rewrite andb_true_r. apply Z.leb_le.
  - rewrite andb_true_r. apply Z.leb_le.
Qed.

Lemma battery_gate_is_85_at_source :
  sensors_pass source_actions = true /\
  (truthy (snd (verify_battery_level 85)) = true <-> 85 <= 85) /\
  past_preflight (run (mission source_actions 85)) = true.
Proof.
  split; [reflexivity|].
  pose proof (battery_gate_is_85 source_actions 85 eq_refl) as H.
  split; [apply H|apply H].
Defined.

(** C3 as stated fails: inside a closed no-fly zone the mission still goes
    past the pre-flight checks, and runs exactly as the nominal mission; the
    workflow lists a no-fly-zone check among the pre-flight actions, and no
    run enters it. *)
Lemma no_fly_zone_is_not_checked :
  no_fly_zone_clear no_fly_zone_closed = false /\
  past_preflight (run (mission_under no_fly_zone_closed)) = true /\
  run (mission_under no_fly_zone_closed) = run simulate_mission /\
  In "confirm_no_fly_zones_and_permits"
     (flat_map step_actions
        (List.filter (fun s => String.eqb (step_name s) "Pre-flight checks") workflow)) /\
  ~ In "confirm_no_fly_zones_and_permits"
       (map fn_name (calls (run (mission_under no_fly_zone_closed)))).
Proof.
  split; [reflexivity|]. split; [vm_compute; reflexivity|].
  split; [vm_compute; reflexivity|]. split.
  - vm_compute. tauto.
  - vm_compute. intros H.
    repeat (destruct H as [H|H]; [discriminate H|]). exact H.
Qed.

(** C3, amended. The mission goes past the pre-flight checks exactly when
    the battery is at 85 percent or more and the sensor health check passes.
    When the battery check fails, it is the only action entered and the run
    ends on its abort report; when the sensor check fails, the two checks are
    the only actions entered, once each, and the run ends on its abort
    report. *)
Theorem preflight_gate (act : Actions.t) (b : Z) :
  (past_preflight (run (mission act b)) = true <->
   85 <= b /\ sensors_pass act = true) /\
  (b < 85 ->
   calls (run (mission act b)) = [Fn_verify_battery_level] /\
   last_line (run (mission act b)) = Some [PStr "Abort: battery insufficient."]) /\
  (85 <= b -> sensors_pass act = false ->
   calls (run (mission act b)) =
     [Fn_verify_battery_level; Fn_run_sensor_health_checks] /\
   last_line (run (mission act b)) = Some [PStr "Abort: sensor health failed."]).
Proof.
  rewrite past_preflight_run, mission_calls, mission_last_line.
  split; [|split].
  - rewrite andb_true_iff, Z.leb_le. tauto.
  - intros Hb. apply Z.leb_gt in Hb. rewrite Hb. split; reflexivity.
  - intros Hb Hs. apply Z.leb_le in Hb. rewrite Hb, Hs. split; reflexivity.
Qed.

Lemma preflight_gate_at_84 :
  calls (run (mission source_actions 84)) = [Fn_verify_battery_level] /\
  last_line (run (mission source_actions 84)) =
    Some [PStr "Abort: battery insufficient."].
Proof.
  apply (proj1 (proj2 (preflight_gate source_actions 84))). reflexivity.
Defined.

(** C8. When the battery check fails, the run is the banner, the battery
    check with its console line, and the abort report: no other action is
    entered, whatever the other actions are, and nothing is returned. *)
Theorem battery_failure_returns_at_once (act : Actions.t) (b : Z) :
  b < 85 ->
  mission act b =
    ([Print [PStr "=== SIMULATING MISSION ==="];
      Call Fn_verify_battery_level [PInt b];
      Print [PStr ("Checking battery: " +:+ str_int b +:+ "% (required >= 85%)")];
      Print [PStr "Abort: battery insufficient."]], tt) /\
  calls (run (mission act b)) = [Fn_verify_battery_level].
Proof.
  intros Hb. apply Z.leb_gt in Hb.
  split.
  - run_mission. rewrite Hb. reflexivity.
  - rewrite mission_calls, Hb. reflexivity.
Qed.

Lemma battery_failure_returns_at_once_at_84 :
  84 < 85 /\
  calls (run (mission source_actions 84)) = [Fn_verify_battery_level].
Proof.
  split; [lia|].
  apply (battery_failure_returns_at_once source_actions 84). lia.
Defined.

(** C9. With the sensor fusion stub of the source, which reports no
    obstacle, no run enters [perform_collision_avoidance], whatever the
    battery level and the other actions are. *)
Theorem collision_avoidance_is_never_entered (act : Actions.t) (b : Z) :
  Actions.sensor_fusion_loop act = sensor_fusion_loop ->
  dict_get (snd sensor_fusion_loop) "obstacle_detected" = PBool false /\
  obstacle_detected act = false /\
  ~ In Fn_perform_collision_avoidance (calls (run (mission act b))) /\
  calls_of Fn_perform_collision_avoidance (run (mission act b)) = [].
Proof.
  intros Hf.
  assert (Ho : obstacle_detected act = false)
    by (unfold obstacle_detected; rewrite Hf; reflexivity).
  split; [reflexivity|]. split; [exact Ho|]. split.
  - rewrite mission_calls, Ho.
    destruct (85 <=? b), (sensors_pass act), (takeoff_succeeds act),
      (landing_succeeds act); cbn [negb app In];
      intros H; repeat (destruct H as [H|H]; [discriminate H|]); exact H.
  - revert Ho. unfold obstacle_detected. run_mission. intros Ho.
    by_outcome (85 <=? b); [|now trace_norm].
    by_outcome (truthy (snd (Actions.run_sensor_health_checks act)));
      [|now trace_norm].
    by_outcome (truthy (snd (Actions.perform_takeoff_sequence act)));
      [|now trace_norm].
    rewrite Ho. cbn -[str_int String.append Z.leb dict_get].
    by_outcome (truthy (snd (Actions.find_drop_point_and_land act)));
      try by_outcome (truthy (snd (Actions.actuate_servo_release act)));
      now trace_norm.
Qed.

Lemma collision_avoidance_is_never_entered_in_simulate_mission :
  Actions.sensor_fusion_loop source_actions = sensor_fusion_loop /\
  ~ In Fn_perform_collision_avoidance (calls (run simulate_mission)).
Proof.
  split; [reflexivity|].
  apply (collision_avoidance_is_never_entered source_actions 92). reflexivity.
Defined.

(** ** Order of the actions and failures *)

Lemma calls_of_length (f : fn) (t : trace) :
  length (calls_of f t) = length (List.filter (fun g => fn_eqb f g) (calls t)).
Proof.
  induction t as [|[g args|args] t IH]; simpl; [reflexivity| |assumption].
  destruct (fn_eqb f g); simpl; now rewrite IH.
Qed.

Ltac in_order :=
  repeat first [ apply sublist_nil | apply sublist_skip | apply sublist_cons ].

(** C4 as stated fails.  [actuate_servo_release] is an action of the landing
    step; when it reports failure the mission is not aborted: the upload and
    the critic review are still entered and the run ends on the completion
    banner.  And when the telemetry upload reports failure it is not entered
    a second time, and the run ends in the same way. *)
Lemma release_failure_does_not_abort :
  steps_of "actuate_servo_release" = ["Landing & package delivery"] /\
  release_succeeds release_fails = false /\
  calls (run (mission release_fails 92)) =
    [Fn_verify_battery_level; Fn_run_sensor_health_checks;
     Fn_compute_optimal_route; Fn_perform_takeoff_sequence;
     Fn_sensor_fusion_loop; Fn_find_drop_point_and_land;
     Fn_actuate_servo_release; Fn_post_delivery_upload;
     Fn_critic_review_and_learning] /\
  last_line (run (mission release_fails 92)) =
    Some [PStr "=== MISSION COMPLETE ==="] /\
  truthy (snd (Actions.post_delivery_upload upload_fails nominal_logs)) = false /\
  calls_of Fn_post_delivery_upload (run (mission upload_fails 92)) =
    [[nominal_logs]] /\
  last_line (run (mission upload_fails 92)) =
    Some [PStr "=== MISSION COMPLETE ==="].
Proof. vm_compute. repeat split; reflexivity. Qed.

(** C4, amended.  The actions are entered in the order of the program, each
    at most once.  A failure of the battery check, of the sensor health check,
    of the takeoff or of the landing ends the run: that action is the last one
    entered and the last line is its abort report.  When these four succeed,
    the servo release, the upload and the critic review are each entered
    exactly once whatever they return, a failed release is reported as a
    warning, and the run ends on the completion banner. *)
Theorem actions_in_order_and_failures (act : Actions.t) (b : Z) :
  sublist (calls (run (mission act b))) program_order /\
  NoDup (calls (run (mission act b))) /\
  (b < 85 ->
   last (calls (run (mission act b))) = Some Fn_verify_battery_level /\
   last_line (run (mission act b)) = Some [PStr "Abort: battery insufficient."]) /\
  (85 <= b -> sensors_pass act = false ->
   last (calls (run (mission act b))) = Some Fn_run_sensor_health_checks /\
   last_line (run (mission act b)) = Some [PStr "Abort: sensor health failed."]) /\
  (85 <= b -> sensors_pass act = true -> takeoff_succeeds act = false ->
   last (calls (run (mission act b))) = Some Fn_perform_takeoff_sequence /\
   last_line (run (mission act b)) = Some [PStr "Abort: takeoff failed."]) /\
  (85 <= b -> sensors_pass act = true -> takeoff_succeeds act = true ->
   landing_succeeds act = false ->
   last (calls (run (mission act b))) = Some Fn_find_drop_point_and_land /\
   last_line (run (mission act b)) = Some [PStr "Abort: landing failed."]) /\
  (85 <= b -> sensors_pass act = true -> takeoff_succeeds act = true ->
   landing_succeeds act = true ->
   length (calls_of Fn_actuate_servo_release (run (mission act b))) = 1%nat /\
   length (calls_of Fn_post_delivery_upload (run (mission act b))) = 1%nat /\
   length (calls_of Fn_critic_review_and_learning (run (mission act b))) = 1%nat /\
   In [PStr (if release_succeeds act then "Package released successfully."
             else "Warning: release failed; marking for manual follow-up.")]
      (console (run (mission act b))) /\
   last_line (run (mission act b)) = Some [PStr "=== MISSION COMPLETE ==="]).
Proof.
  split; [|split].
  - rewrite mission_calls. unfold program_order.
    destruct (85 <=? b), (sensors_pass act), (takeoff_succeeds act),
      (obstacle_detected act), (landing_succeeds act);
      cbn [negb app]; in_order.
  - rewrite mission_calls.
    destruct (85 <=? b), (sensors_pass act), (takeoff_succeeds act),
      (obstacle_detected act), (landing_succeeds act);
      cbn [negb app]; apply (bool_decide_unpack _); vm_compute; exact I.
  - repeat split.
    all: try (rewrite mission_last_line).
    all: try (rewrite !calls_of_length).
    all: try (rewrite mission_calls).
    all: try (apply mission_release_line; assumption).
    all: repeat match goal with
           | H : _ < 85 |- _ => apply Z.leb_gt in H; rewrite H
           | H : 85 <= _ |- _ => apply Z.leb_le in H; rewrite H
           | H : _ = true |- _ => rewrite H; clear H
           | H : _ = false |- _ => rewrite H; clear H
           end.
    all: try reflexivity.
    all: destruct (obstacle_detected act); reflexivity.
Qed.

Lemma actions_in_order_in_simulate_mission :
  sublist (calls (run (mission source_actions 92))) program_order /\
  NoDup (calls (run (mission source_actions 92))).
Proof.
  split; [apply (actions_in_order_and_failures source_actions 92)|].
  apply (proj1 (proj2 (actions_in_order_and_failures source_actions 92))).
Defined.

(** ** The nominal mission *)

(** C5 as stated fails.  The log of the nominal mission is a dictionary of
    three entries, [route], [battery_end] and [delivered], while the workflow
    has ten steps; and the run ends after the critic review, having entered no
    action of the return-to-base step nor of the charging step. *)
Lemma nominal_log_is_not_one_entry_per_phase :
  calls_of Fn_post_delivery_upload (run simulate_mission) = [[nominal_logs]] /\
  map fst (as_dict nominal_logs) = ["route"; "battery_end"; "delivered"] /\
  length (as_dict nominal_logs) = 3%nat /\
  length workflow = 10%nat /\
  steps_entered (run simulate_mission) =
    ["Pre-flight checks"; "Route planning & optimization";
     "Takeoff & initial ascent";
     "En-route navigation & perception loop (continuous)";
     "Landing & package delivery"] /\
  map step_name (skipn 7 workflow) =
    ["Return-to-base or proceed to next mission";
     "Charging, diagnostics & maintenance";
     "Critic review & continuous learning loop"] /\
  last (calls (run simulate_mission)) = Some Fn_critic_review_and_learning.
Proof. vm_compute. repeat split; reflexivity. Qed.

(** C5, amended.  The nominal mission (battery 92, the stubs of the source)
    enters nine actions, each once, in the order of the program, without
    collision avoidance; no console line reports an abort and the last one is
    the completion banner; the log handed to the upload and to the critic
    review is the dictionary of the route, the battery at the end, 72, and the
    delivery flag. *)
Theorem nominal_mission_completes :
  calls (run simulate_mission) =
    [Fn_verify_battery_level; Fn_run_sensor_health_checks;
     Fn_compute_optimal_route; Fn_perform_takeoff_sequence;
     Fn_sensor_fusion_loop; Fn_find_drop_point_and_land;
     Fn_actuate_servo_release; Fn_post_delivery_upload;
     Fn_critic_review_and_learning] /\
  List.filter abort_line (console (run simulate_mission)) = [] /\
  last_line (run simulate_mission) = Some [PStr "=== MISSION COMPLETE ==="] /\
  nominal_logs =
    PDict [("route",
            PDict [("path", PList [PStr "DistributionCenterA"; PStr "waypoint1";
                                   PStr "waypoint2"; PStr "Customer_123_MainSt"]);
                   ("eta_min", PInt 12)]);
           ("battery_end", PInt 72);
           ("delivered", PBool true)] /\
  calls_of Fn_post_delivery_upload (run simulate_mission) = [[nominal_logs]] /\
  calls_of Fn_critic_review_and_learning (run simulate_mission) = [[nominal_logs]].
Proof. vm_compute. repeat split; reflexivity. Qed.

(** ** The sensor fusion stub *)

(** C7 as stated fails: the stub has a side effect, it prints a line on the
    console at each evaluation. *)
Lemma sensor_fusion_loop_prints :
  length (fst sensor_fusion_loop) = 1%nat /\
  (side_effect_free sensor_fusion_loop -> False).
Proof.
  split; [reflexivity|]. unfold side_effect_free. intros H. discriminate H.
Qed.

(** C7, amended.  The stub takes no argument and returns the same value at
    each evaluation, a dictionary in which no obstacle is detected; its only
    effect is one console line, the same at each evaluation.  Two evaluations
    in a row return equal values and leave the same two events twice. *)
Theorem sensor_fusion_loop_is_deterministic :
  snd sensor_fusion_loop = [("obstacle_detected", PBool false)] /\
  fst (snd fusion_twice) = snd (snd fusion_twice) /\
  run fusion_twice =
    run (invoke Fn_sensor_fusion_loop [] sensor_fusion_loop) ++
    run (invoke Fn_sensor_fusion_loop [] sensor_fusion_loop) /\
  calls (run fusion_twice) = [Fn_sensor_fusion_loop; Fn_sensor_fusion_loop] /\
  length (console (run (invoke Fn_sensor_fusion_loop [] sensor_fusion_loop))) = 1%nat.
Proof. repeat split; reflexivity. Qed.

(** ** Lost communications in the agent specification *)

(** C6 as stated fails: the en-route step declares a trigger on
    communications lost for more than 10 seconds that switches to the
    predefined failsafe behaviour, so a threshold lower than 30 seconds
    triggers the failsafe: after 20 seconds without communications a rule of
    the specification is met.  And the action of the blackout failsafe is not
    hovering then returning only, it names landing at a safe site as well. *)
Lemma comms_failsafe_has_a_lower_threshold :
  In ("if_comms_lost_gt_10s",
      "switch to predefined failsafe behavior (hover or return home)")
     (comms_lost_rules AGENT_SPEC) /\
  first_number "if_comms_lost_gt_10s" = Some 10 /\
  In (Some 10) (comms_lost_thresholds AGENT_SPEC) /\
  existsb (fun threshold => exceeded threshold 20)
          (comms_lost_thresholds AGENT_SPEC) = true /\
  (20 <=? 30) = true /\
  dict_get
    (as_dict (dict_get (as_dict (dict_get (as_dict AGENT_SPEC)
                                          "error_handling_and_failsafes"))
                       "communication_blackout"))
    "action" =
  PStr "follow_predefined_failsafe (hover_then_return or land_at_safe_site)".
Proof. vm_compute. repeat split; auto. Qed.

(** C6, amended.  The agent specification declares the communication
    blackout failsafe with the condition of communications lost for more than
    30 seconds and the action of following the predefined failsafe (hover then
    return, or land at a safe site); its en-route step also declares a trigger
    at 10 seconds that switches to the predefined failsafe behaviour (hover or
    return home).  These are its only two rules on lost communications: one
    is met above 10 seconds, the other above 30 seconds. *)
Theorem comms_lost_rules_of_the_spec :
  dict_get (as_dict (dict_get (as_dict AGENT_SPEC) "error_handling_and_failsafes"))
           "communication_blackout" =
    PDict [("condition", PStr "comms_lost > 30s");
           ("action",
            PStr "follow_predefined_failsafe (hover_then_return or land_at_safe_site)")] /\
  dict_get (as_dict (nth 3 workflow PNone)) "triggers" =
    PList [PDict [("if_obstacle_distance_lt_threshold",
                   PStr "invoke avoidance_maneuver")];
           PDict [("if_battery_lt_25_percent",
                   PStr "compute nearest safe landing or return-to-base")];
           PDict [("if_comms_lost_gt_10s",
                   PStr "switch to predefined failsafe behavior (hover or return home)")]] /\
  comms_lost_rules AGENT_SPEC =
    [("if_comms_lost_gt_10s",
      "switch to predefined failsafe behavior (hover or return home)");
     ("condition", "comms_lost > 30s")] /\
  comms_lost_thresholds AGENT_SPEC = [Some 10; Some 30] /\
  (forall seconds : Z,
     map (fun threshold => exceeded threshold seconds)
         (comms_lost_thresholds AGENT_SPEC) = [10 <? seconds; 30 <? seconds]).
Proof.
  split; [|split; [|split; [|split]]]; [vm_compute; reflexivity ..|].
  intros seconds.
  replace (comms_lost_thresholds AGENT_SPEC) with [Some 10; Some 30]
    by (vm_compute; reflexivity).
  reflexivity.
Qed.

(** ** The pending directive *)

Lemma post_severity (pending : option Failsafe.directive) (d : Failsafe.directive) :
  (Failsafe.pending_severity pending
   <= Failsafe.pending_severity (Failsafe.post pending d))%nat.
Proof.
  unfold Failsafe.post.
  destruct (Nat.leb_spec (Failsafe.pending_severity pending) (Failsafe.severity d));
    simpl; lia.
Qed.

Lemma history_head (pending : option Failsafe.directive)
    (posted : list Failsafe.directive) :
  Failsafe.history pending posted !! 0%nat = Some pending.
Proof. destruct posted; reflexivity. Qed.

Lemma history_step (posted : list Failsafe.directive) :
  forall (pending : option Failsafe.directive) (i : nat)
         (p q : option Failsafe.directive),
    Failsafe.history pending posted !! i = Some p ->
    Failsafe.history pending posted !! S i = Some q ->
    (Failsafe.pending_severity p <= Failsafe.pending_severity q)%nat.
Proof.
  induction posted as [|d rest IH]; intros pending i p q Hp Hq.
  - destruct i; discriminate Hq.
  - destruct i as [|i]; simpl in Hp, Hq.
    + rewrite history_head in Hq. injection Hp as <-. injection Hq as <-.
      apply post_severity.
    + eapply IH; eassumption.
Qed.

Lemma history_above (posted : list Failsafe.directive) :
  forall (pending p : option Failsafe.directive),
    In p (Failsafe.history pending posted) ->
    (Failsafe.pending_severity pending <= Failsafe.pending_severity p)%nat.
Proof.
  induction posted as [|d rest IH]; intros pending p Hin; simpl in Hin.
  - destruct Hin as [<-|[]]. lia.
  - destruct Hin as [<-|Hin]; [lia|].
    apply IH in Hin. pose proof (post_severity pending d). lia.
Qed.

(** C1.  While the controller consumes nothing, the severity of the pending
    directive never decreases from one post of the supervisor to the next, and
    never falls below what it was at the start; a posted directive replaces
    the outstanding one exactly when its severity is greater than or equal,
    and one of lower severity leaves it as it is; the severities are ordered
    EmergencyManeuver > Abort > ReturnToBase > Hover > Reroute. *)
Theorem pending_severity_is_monotone (pending : option Failsafe.directive)
    (posted : list Failsafe.directive) :
  (forall (i : nat) (p q : option Failsafe.directive),
     Failsafe.history pending posted !! i = Some p ->
     Failsafe.history pending posted !! S i = Some q ->
     (Failsafe.pending_severity p <= Failsafe.pending_severity q)%nat) /\
  (forall p : option Failsafe.directive,
     In p (Failsafe.history pending posted) ->
     (Failsafe.pending_severity pending <= Failsafe.pending_severity p)%nat) /\
  (forall d : Failsafe.directive,
     Failsafe.post pending d = Some d <->
     (Failsafe.pending_severity pending <= Failsafe.severity d)%nat) /\
  (forall d : Failsafe.directive,
     (Failsafe.severity d < Failsafe.pending_severity pending)%nat ->
     Failsafe.post pending d = pending) /\
  (Failsafe.severity Failsafe.Reroute < Failsafe.severity Failsafe.Hover)%nat /\
  (Failsafe.severity Failsafe.Hover < Failsafe.severity Failsafe.ReturnToBase)%nat /\
  (Failsafe.severity Failsafe.ReturnToBase < Failsafe.severity Failsafe.Abort)%nat /\
  (Failsafe.severity Failsafe.Abort
   < Failsafe.severity Failsafe.EmergencyManeuver)%nat.
Proof.
  split; [apply history_step|]. split; [apply history_above|].
  split; [|split; [|simpl; lia]].
  - intros d. unfold Failsafe.post.
    destruct (Nat.leb_spec (Failsafe.pending_severity pending) (Failsafe.severity d))
      as [Hle|Hlt]; [tauto|].
    split; [|lia]. intros ->. simpl in Hlt. lia.
  - intros d Hlt. unfold Failsafe.post.
    destruct (Nat.leb_spec (Failsafe.pending_severity pending) (Failsafe.severity d));
      [lia|reflexivity].
Qed.

Lemma pending_abort_is_kept :
  Failsafe.history (Some Failsafe.Abort) [Failsafe.Hover; Failsafe.Reroute] =
    [Some Failsafe.Abort; Some Failsafe.Abort; Some Failsafe.Abort] /\
  Failsafe.post (Some Failsafe.Abort) Failsafe.Hover = Some Failsafe.Abort.
Proof.
  split; [reflexivity|].
  apply (proj1 (proj2 (proj2 (proj2
    (pending_severity_is_monotone (Some Failsafe.Abort) [])))) Failsafe.Hover).
  simpl. lia.
Defined.

(** ** More on the mission *)

Ltac by_gates act b :=
  destruct (Z.leb_spec 85 b), (sensors_pass act), (takeoff_succeeds act),
    (obstacle_detected act), (landing_succeeds act);
  cbn [negb app In].

(** X5.  A run ends on the completion banner exactly when the battery check,
    the sensor health check, the takeoff and the landing all succeed; exactly
    then are the telemetry upload and the critic review entered.  Neither an
    obstacle nor what the servo release, the upload or the review return
    changes it. *)
Theorem mission_completes_iff (act : Actions.t) (b : Z) :
  (last_line (run (mission act b)) = Some [PStr "=== MISSION COMPLETE ==="] <->
   gates_pass act b) /\
  (In Fn_post_delivery_upload (calls (run (mission act b))) <-> gates_pass act b) /\
  (In Fn_critic_review_and_learning (calls (run (mission act b))) <->
   gates_pass act b).
Proof.
  unfold gates_pass. rewrite mission_last_line, mission_calls. unfold PStr.
  by_gates act b;
    repeat split; intros;
    repeat match goal with
      | H : _ /\ _ |- _ => destruct H
      | H : _ \/ _ |- _ => destruct H
      | H : False |- _ => destruct H
      end;
    try discriminate; try lia; auto 20.
Qed.

(** X6.  The collision avoidance is entered exactly when the mission has
    taken off and the value under [obstacle_detected] in what the sensor
    fusion returns is true in the sense of Python; a snapshot without that key
    counts as no obstacle.  The landing is attempted after every successful
    takeoff, whatever the fusion and the avoidance return. *)
Theorem collision_avoidance_iff (act : Actions.t) (b : Z) :
  (In Fn_perform_collision_avoidance (calls (run (mission act b))) <->
   85 <= b /\ sensors_pass act = true /\ takeoff_succeeds act = true /\
   obstacle_detected act = true) /\
  (dict_lookup (snd (Actions.sensor_fusion_loop act)) "obstacle_detected" = None ->
   obstacle_detected act = false) /\
  (In Fn_find_drop_point_and_land (calls (run (mission act b))) <->
   85 <= b /\ sensors_pass act = true /\ takeoff_succeeds act = true).
Proof.
  split; [|split].
  - rewrite mission_calls.
    by_gates act b;
      repeat split; intros;
      repeat match goal with
        | H : _ /\ _ |- _ => destruct H
        | H : _ \/ _ |- _ => destruct H
        | H : False |- _ => destruct H
        end;
      try discriminate; try lia; auto 20.
  - unfold obstacle_detected, dict_get. intros ->. reflexivity.
  - rewrite mission_calls.
    by_gates act b;
      repeat split; intros;
      repeat match goal with
        | H : _ /\ _ |- _ => destruct H
        | H : _ \/ _ |- _ => destruct H
        | H : False |- _ => destruct H
        end;
      try discriminate; try lia; auto 20.
Qed.

Lemma collision_avoidance_without_the_key :
  dict_lookup (snd (Actions.sensor_fusion_loop fusion_without_key))
              "obstacle_detected" = None /\
  obstacle_detected fusion_without_key = false.
Proof.
  assert (H : dict_lookup (snd (Actions.sensor_fusion_loop fusion_without_key))
                          "obstacle_detected" = None) by reflexivity.
  split; [exact H|].
  apply (proj1 (proj2 (collision_avoidance_iff fusion_without_key 92)) H).
Defined.

(** X7.  The critic review is handed exactly what the telemetry upload is
    handed: when the four gating actions succeed, both are entered once with
    the same logs, the planned route, the battery level less 20 and a delivery
    flag that is true whether or not the servo release succeeded; otherwise
    neither is entered. *)
Theorem upload_and_review_get_the_same_logs (act : Actions.t) (b : Z) :
  calls_of Fn_critic_review_and_learning (run (mission act b)) =
    calls_of Fn_post_delivery_upload (run (mission act b)) /\
  (gates_pass act b ->
   calls_of Fn_post_delivery_upload (run (mission act b)) =
     [[mission_logs (planned_route act b) b]]) /\
  (~ gates_pass act b ->
   calls_of Fn_post_delivery_upload (run (mission act b)) = []) /\
  dict_get (as_dict (mission_logs (planned_route act b) b)) "route" =
    planned_route act b /\
  dict_get (as_dict (mission_logs (planned_route act b) b)) "battery_end" =
    PInt (b - 20) /\
  dict_get (as_dict (mission_logs (planned_route act b) b)) "delivered" =
    PBool true.
Proof.
  split; [|split; [|split; [|repeat split]]].
  - run_mission.
    by_outcome (85 <=? b); [|now trace_norm].
    by_outcome (truthy (snd (Actions.run_sensor_health_checks act)));
      [|now trace_norm].
    by_outcome (truthy (snd (Actions.perform_takeoff_sequence act)));
      [|now trace_norm].
    by_outcome (truthy (dict_get (snd (Actions.sensor_fusion_loop act))
                                 "obstacle_detected"));
      by_outcome (truthy (snd (Actions.find_drop_point_and_land act)));
      try by_outcome (truthy (snd (Actions.actuate_servo_release act)));
      now trace_norm.
  - unfold gates_pass, sensors_pass, takeoff_succeeds, landing_succeeds,
      planned_route.
    intros (Hb & Hs & Ht & Hl). apply Z.leb_le in Hb.
    run_mission. rewrite Hb, Hs. cbn -[str_int String.append Z.leb dict_get].
    rewrite Ht. cbn -[str_int String.append Z.leb dict_get].
    by_outcome (truthy (dict_get (snd (Actions.sensor_fusion_loop act))
                                 "obstacle_detected"));
      rewrite Hl; cbn -[str_int String.append Z.leb dict_get];
      by_outcome (truthy (snd (Actions.actuate_servo_release act)));
      now trace_norm.
  - unfold gates_pass, sensors_pass, takeoff_succeeds, landing_succeeds.
    intros Hno. run_mission.
    destruct (Z.leb_spec 85 b) as [Hb|Hb];
      cbn -[str_int String.append Z.leb dict_get]; [|now trace_norm].
    by_outcome (truthy (snd (Actions.run_sensor_health_checks act)));
      [|now trace_norm].
    by_outcome (truthy (snd (Actions.perform_takeoff_sequence act)));
      [|now trace_norm].
    by_outcome (truthy (dict_get (snd (Actions.sensor_fusion_loop act))
                                 "obstacle_detected"));
      by_outcome (truthy (snd (Actions.find_drop_point_and_land act)));
      try (now trace_norm); exfalso; apply Hno; auto.
Qed.

Lemma upload_and_review_at_failed_release :
  gates_pass release_fails 92 /\
  release_succeeds release_fails = false /\
  calls_of Fn_post_delivery_upload (run (mission release_fails 92)) =
    [[mission_logs (planned_route release_fails 92) 92]].
Proof.
  assert (H : gates_pass release_fails 92)
    by (repeat split; [lia|reflexivity..]).
  split; [exact H|]. split; [reflexivity|].
  apply (proj1 (proj2 (upload_and_review_get_the_same_logs release_fails 92)) H).
Defined.

(** X8.  From 85 percent up the battery level does not change which actions
    a run enters, nor in which order: after the pre-flight check nothing
    tests the battery again. *)
Theorem later_actions_ignore_the_battery (act : Actions.t) (b b' : Z) :
  85 <= b -> 85 <= b' ->
  calls (run (mission act b)) = calls (run (mission act b')) /\
  last_line (run (mission act b)) = last_line (run (mission act b')).
Proof.
  intros Hb Hb'. apply Z.leb_le in Hb, Hb'.
  rewrite !mission_calls, !mission_last_line, Hb, Hb'. split; reflexivity.
Qed.

Lemma later_actions_ignore_the_battery_at_85_and_100 :
  85 <= 85 /\ 85 <= 100 /\
  calls (run (mission source_actions 85)) = calls (run (mission source_actions 100)).
Proof.
  split; [lia|]. split; [lia|].
  apply (later_actions_ignore_the_battery source_actions 85 100); lia.
Defined.

(** * The YAML writer *)

(** ** Strings and joined lines *)

Lemma append_assoc (a b c : string) : (a +:+ b) +:+ c = a +:+ b +:+ c.
Proof.
  induction a as [|x a IH]; [reflexivity|].
  change (String x ((a +:+ b) +:+ c) = String x (a +:+ b +:+ c)).
  now rewrite IH.
Qed.

Lemma join_cons (sep x : string) (l : list string) :
  l <> [] -> join sep (x :: l) = x +:+ sep +:+ join sep l.
Proof. destruct l; [congruence|reflexivity]. Qed.

(** Joining after a prefix only depends on the joined text of the rest and on
    whether there is a rest. *)
Lemma join_app_congr (sep : string) (pre l1 l2 : list string) :
  (l1 = [] <-> l2 = []) -> join sep l1 = join sep l2 ->
  join sep (pre ++ l1) = join sep (pre ++ l2).
Proof.
  intros Hnil Hjoin. induction pre as [|x pre IH]; [exact Hjoin|].
  destruct pre as [|y pre].
  - cbn [app]. destruct l1 as [|a l1], l2 as [|b l2]; try reflexivity.
    + destruct Hnil as [Hnil _]. specialize (Hnil eq_refl). discriminate Hnil.
    + destruct Hnil as [_ Hnil]. specialize (Hnil eq_refl). discriminate Hnil.
    + rewrite (join_cons sep x (a :: l1)), (join_cons sep x (b :: l2))
        by discriminate.
      now rewrite Hjoin.
  - change ((x :: y :: pre) ++ l1) with (x :: (y :: pre) ++ l1).
    change ((x :: y :: pre) ++ l2) with (x :: (y :: pre) ++ l2).
    rewrite (join_cons sep x ((y :: pre) ++ l1)),
      (join_cons sep x ((y :: pre) ++ l2)) by discriminate.
    now rewrite IH.
Qed.

(** A joined text put among other lines reads as its own lines. *)
Lemma join_join (sep : string) (ls rest : list string) :
  ls <> [] -> join sep (join sep ls :: rest) = join sep (ls ++ rest).
Proof.
  induction ls as [|a ls IH]; [congruence|]. intros _.
  destruct ls as [|b ls]; [reflexivity|].
  rewrite (join_cons sep a (b :: ls)) by discriminate.
  change ((a :: b :: ls) ++ rest) with (a :: (b :: ls) ++ rest).
  rewrite (join_cons sep a ((b :: ls) ++ rest)) by discriminate.
  rewrite <- IH by discriminate.
  destruct rest as [|r rest].
  - reflexivity.
  - repeat rewrite (join_cons sep _ (r :: rest)) by discriminate.
    now rewrite !append_assoc.
Qed.

(** ** The loops of [fmt] *)

Lemma fmt_dict (r : process) (kvs : list (string * pyval)) (indent : nat) :
  fmt r (PDict kvs) indent =
  join newline (flat_map (dict_item_lines r indent) kvs).
Proof.
  cbn [fmt]. f_equal.
  induction kvs as [|[k v] rest IH]; [reflexivity|].
  cbn [flat_map]. rewrite <- IH. unfold dict_item_lines. cbn [fst snd].
  destruct v; reflexivity.
Qed.

Lemma fmt_list (r : process) (items : list pyval) (indent : nat) :
  fmt r (PList items) indent =
  join newline (flat_map (list_item_lines r indent) items).
Proof.
  reflexivity.
Qed.

(** Induction on a value, with the property at hand for the values it holds. *)
Lemma pyval_nested_ind (P : pyval -> Prop) :
  (forall c, P (PScalar c)) ->
  (forall id truth, P (PObject id truth)) ->
  (forall items, Forall P items -> P (PList items)) ->
  (forall kvs, Forall (fun kv => P (snd kv)) kvs -> P (PDict kvs)) ->
  forall o, P o.
Proof.
  intros Hs Ho Hl Hd. fix IH 1. intros [c|id truth|items|kvs].
  - apply Hs.
  - apply Ho.
  - apply Hl. induction items as [|item rest IHr]; constructor.
    + apply IH.
    + exact IHr.
  - apply Hd. induction kvs as [|[k v] rest IHr]; constructor.
    + apply IH.
    + exact IHr.
Qed.

Lemma out_lines_dict (r : process) (kvs : list (string * pyval)) (indent : nat) :
  kvs <> [] ->
  out_lines r (PDict kvs) indent = flat_map (dict_item_out r indent) kvs.
Proof.
  intros Hne. destruct kvs as [|[k0 v0] rest]; [congruence|].
  cbn [out_lines flat_map]. f_equal.
  - unfold dict_item_out. cbn [fst snd]. destruct v0; reflexivity.
  - clear. induction rest as [|[k v] rest IH]; [reflexivity|].
    cbn [flat_map]. rewrite <- IH. unfold dict_item_out. cbn [fst snd].
    destruct v; reflexivity.
Qed.

Lemma out_lines_list (r : process) (items : list pyval) (indent : nat) :
  items <> [] ->
  out_lines r (PList items) indent = flat_map (list_item_out r indent) items.
Proof.
  intros Hne. destruct items as [|item0 items0]; [congruence|]. reflexivity.
Qed.

Lemma join_nested (sep h : string) (ls r1 r2 : list string) :
  ls <> [] -> (r1 = [] <-> r2 = []) -> join sep r1 = join sep r2 ->
  join sep ([h; join sep ls] ++ r1) = join sep ((h :: ls) ++ r2).
Proof.
  intros Hne Hnil Hjoin. cbn [app].
  rewrite (join_cons sep h (join sep ls :: r1)) by discriminate.
  rewrite (join_cons sep h (ls ++ r2)).
  - rewrite (join_join sep ls r1 Hne).
    now rewrite (join_app_congr sep ls r1 r2 Hnil Hjoin).
  - intros Happ. apply app_eq_nil in Happ. tauto.
Qed.

Lemma join_flat_map_congr {A : Type} (sep : string) (f g : A -> list string)
    (l : list A) :
  Forall (fun x => same_joined sep (f x) (g x)) l ->
  join sep (flat_map f l) = join sep (flat_map g l) /\
  (flat_map f l = [] <-> flat_map g l = []).
Proof.
  induction 1 as [|x l (Hf & Hg & Hx) _ [IHj IHn]]; [split; [reflexivity|tauto]|].
  cbn [flat_map]. split.
  - apply Hx; assumption.
  - split; intros Happ; apply app_eq_nil in Happ; tauto.
Qed.

Lemma same_joined_refl (sep : string) (l : list string) :
  l <> [] -> same_joined sep l l.
Proof.
  intros Hne. repeat split; try assumption.
  intros r1 r2. apply join_app_congr.
Qed.

Lemma same_joined_nested (sep h : string) (ls : list string) :
  ls <> [] -> same_joined sep [h; join sep ls] (h :: ls).
Proof.
  intros Hne. repeat split; try discriminate.
  intros r1 r2. now apply join_nested.
Qed.

(** ** The text of [fmt], line by line *)

Lemma fmt_out_lines (r : process) (o : pyval) (indent : nat) :
  fmt r o indent = join newline (out_lines r o indent) /\
  out_lines r o indent <> [].
Proof.
  revert indent.
  induction o as [c|id truth|items IH|kvs IH] using pyval_nested_ind;
    intros indent.
  - split; [reflexivity|discriminate].
  - split; [reflexivity|discriminate].
  - destruct items as [|item0 items0]; [split; [reflexivity|discriminate]|].
    rewrite fmt_list, out_lines_list by discriminate.
    assert (H : Forall (fun item => same_joined newline
                          (list_item_lines r indent item)
                          (list_item_out r indent item)) (item0 :: items0)).
    { eapply Forall_impl; [exact IH|]. intros item Hitem.
      unfold list_item_lines, list_item_out.
      destruct item as [c|id truth|its|kvs].
      - apply same_joined_refl. discriminate.
      - apply same_joined_refl. discriminate.
      - destruct (Hitem (S indent)) as [-> Hne]. now apply same_joined_nested.
      - destruct (Hitem (S indent)) as [-> Hne]. now apply same_joined_nested. }
    apply join_flat_map_congr in H. destruct H as [Hj Hn]. split; [exact Hj|].
    cbn [flat_map]. unfold list_item_out.
    destruct item0; discriminate.
  - destruct kvs as [|kv0 kvs0]; [split; [reflexivity|discriminate]|].
    rewrite fmt_dict, out_lines_dict by discriminate.
    assert (H : Forall (fun kv => same_joined newline
                          (dict_item_lines r indent kv)
                          (dict_item_out r indent kv)) (kv0 :: kvs0)).
    { eapply Forall_impl; [exact IH|]. intros [k v] Hv.
      unfold dict_item_lines, dict_item_out. cbn [fst snd] in *.
      destruct v as [c|id truth|its|kvs].
      - apply same_joined_refl. discriminate.
      - apply same_joined_refl. discriminate.
      - destruct (Hv (S indent)) as [-> Hne]. now apply same_joined_nested.
      - destruct (Hv (S indent)) as [-> Hne]. now apply same_joined_nested. }
    apply join_flat_map_congr in H. destruct H as [Hj Hn]. split; [exact Hj|].
    cbn [flat_map]. unfold dict_item_out. destruct kv0 as [k v].
    cbn [fst snd]. destruct v; discriminate.
Qed.

(** X1.  The text [fmt] returns is its lines joined by newlines, the lines of
    a nested value standing in the place of its text, and there is always at
    least one line: an empty dictionary or list gives one empty line. *)
Theorem fmt_is_its_lines (r : process) (o : pyval) (indent : nat) :
  fmt r o indent = join newline (out_lines r o indent) /\
  out_lines r o indent <> [] /\
  out_lines r (PDict []) indent = [EmptyString] /\
  out_lines r (PList []) indent = [EmptyString].
Proof.
  destruct (fmt_out_lines r o indent) as [Hj Hne]. repeat split; assumption.
Qed.

(** ** The lines of the text *)

Lemma text_lines_append (s rest : string) :
  no_newline s = true ->
  text_lines (s +:+ newline +:+ rest) = s :: text_lines rest.
Proof.
  induction s as [|c s IH]; intros Hs; [reflexivity|].
  cbn [no_newline] in Hs. apply andb_true_iff in Hs. destruct Hs as [Hc Hs].
  apply negb_true_iff in Hc.
  change (String c s +:+ newline +:+ rest) with (String c (s +:+ newline +:+ rest)).
  cbn [text_lines]. rewrite Hc, (IH Hs). reflexivity.
Qed.

Lemma text_lines_single (s : string) :
  no_newline s = true -> text_lines s = [s].
Proof.
  induction s as [|c s IH]; intros Hs; [reflexivity|].
  cbn [no_newline] in Hs. apply andb_true_iff in Hs. destruct Hs as [Hc Hs].
  apply negb_true_iff in Hc. cbn [text_lines]. rewrite Hc, (IH Hs). reflexivity.
Qed.

(** Splitting undoes joining, for lines without a newline. *)
Lemma text_lines_join (ls : list string) :
  ls <> [] -> Forall (fun line => no_newline line = true) ls ->
  text_lines (join newline ls) = ls.
Proof.
  intros Hne Hls. induction Hls as [|line rest Hline Hrest IH]; [congruence|].
  destruct rest as [|line' rest].
  - apply text_lines_single, Hline.
  - rewrite join_cons by discriminate.
    rewrite text_lines_append by exact Hline.
    f_equal. apply IH. discriminate.
Qed.

Lemma no_newline_append (a b : string) :
  no_newline (a +:+ b) = no_newline a && no_newline b.
Proof.
  induction a as [|c a IH]; [reflexivity|].
  change (String c a +:+ b) with (String c (a +:+ b)). cbn [no_newline].
  rewrite IH. apply andb_assoc.
Qed.

Lemma no_newline_padding (indent : nat) : no_newline (padding indent) = true.
Proof.
  induction indent as [|n IH]; [reflexivity|].
  cbn [padding]. rewrite no_newline_append, IH. reflexivity.
Qed.

Lemma out_lines_no_newline (r : process) (o : pyval) :
  single_line r o = true ->
  forall indent : nat,
    Forall (fun line => no_newline line = true) (out_lines r o indent).
Proof.
  induction o as [c|id truth|items IH|kvs IH] using pyval_nested_ind;
    cbn [single_line]; intros Hone indent.
  - constructor; [|constructor].
    now rewrite no_newline_append, no_newline_padding.
  - constructor; [|constructor].
    now rewrite no_newline_append, no_newline_padding.
  - destruct items as [|item0 items0]; [repeat constructor|].
    rewrite out_lines_list by discriminate. apply Forall_flat_map.
    revert Hone. generalize (item0 :: items0) IH. clear.
    intros items IH. induction IH as [|item rest Hitem _ IHrest];
      intros Hone; [constructor|].
    cbn [forallb] in Hone. apply andb_true_iff in Hone.
    destruct Hone as [Hi Hrest]. constructor; [|apply IHrest, Hrest].
    unfold list_item_out. destruct item as [c|id truth|its|kvs].
    + cbn [single_line] in Hi. constructor; [|constructor].
      rewrite !no_newline_append, no_newline_padding. exact Hi.
    + cbn [single_line] in Hi. constructor; [|constructor].
      rewrite !no_newline_append, no_newline_padding. exact Hi.
    + constructor; [|apply (Hitem Hi)].
      now rewrite no_newline_append, no_newline_padding.
    + constructor; [|apply (Hitem Hi)].
      now rewrite no_newline_append, no_newline_padding.
  - destruct kvs as [|kv0 kvs0]; [repeat constructor|].
    rewrite out_lines_dict by discriminate. apply Forall_flat_map.
    revert Hone. generalize (kv0 :: kvs0) IH. clear.
    intros kvs IH. induction IH as [|[k v] rest Hv _ IHrest];
      intros Hone; [constructor|].
    cbn [forallb] in Hone. apply andb_true_iff in Hone.
    destruct Hone as [Hkv Hrest]. apply andb_true_iff in Hkv.
    destruct Hkv as [Hk Hi]. constructor; [|apply IHrest, Hrest].
    unfold dict_item_out. cbn [fst snd] in *.
    destruct v as [c|id truth|its|kvs].
    + cbn [single_line] in Hi. constructor; [|constructor].
      rewrite !no_newline_append, no_newline_padding, Hk. exact Hi.
    + cbn [single_line] in Hi. constructor; [|constructor].
      rewrite !no_newline_append, no_newline_padding, Hk. exact Hi.
    + constructor; [|apply (Hv Hi)].
      now rewrite !no_newline_append, no_newline_padding, Hk.
    + constructor; [|apply (Hv Hi)].
      now rewrite !no_newline_append, no_newline_padding, Hk.
Qed.

(** The lines of the text are the lines [fmt] put together, when no key and
    no leaf prints with a newline. *)
Lemma fmt_text_lines (r : process) (o : pyval) (indent : nat) :
  single_line r o = true -> text_lines (fmt r o indent) = out_lines r o indent.
Proof.
  intros Hone. destruct (fmt_out_lines r o indent) as [-> Hne].
  apply text_lines_join; [exact Hne|]. now apply out_lines_no_newline.
Qed.

(** ** Indentation *)

Lemma append_nonempty (a b : string) : b <> EmptyString -> a +:+ b <> EmptyString.
Proof. destruct a; [trivial|discriminate]. Qed.

Lemma indented_nonempty (line : string) :
  line <> EmptyString -> indented line = "  " +:+ line.
Proof. destruct line; [congruence|reflexivity]. Qed.

Lemma padding_S (indent : nat) (rest : string) :
  padding (S indent) +:+ rest = "  " +:+ padding indent +:+ rest.
Proof. cbn [padding]. apply append_assoc. Qed.

Lemma deeper_line (indent : nat) (rest : string) :
  rest <> EmptyString ->
  padding (S indent) +:+ rest = indented (padding indent +:+ rest).
Proof.
  intros Hne. rewrite indented_nonempty by now apply append_nonempty.
  apply padding_S.
Qed.

Lemma deeper_items {A : Type} (f g : A -> list string) (l : list A) :
  Forall (fun x => f x = map indented (g x)) l ->
  flat_map f l = map indented (flat_map g l).
Proof.
  induction 1 as [|x l Hx _ IH]; [reflexivity|].
  cbn [flat_map]. now rewrite map_app, Hx, IH.
Qed.

Lemma deeper_lines (r : process) (o : pyval) :
  forall indent : nat,
    is_container o = true ->
    out_lines r o (S indent) = map indented (out_lines r o indent).
Proof.
  induction o as [c|id truth|items IH|kvs IH] using pyval_nested_ind;
    intros indent Hc; try discriminate Hc.
  - destruct items as [|item0 items0]; [reflexivity|].
    rewrite !out_lines_list by discriminate. apply deeper_items.
    eapply Forall_impl; [exact IH|]. intros item Hitem.
    unfold list_item_out. destruct item as [c|id truth|its|kvs]; cbn [map].
    + f_equal. apply deeper_line. discriminate.
    + f_equal. apply deeper_line. discriminate.
    + f_equal; [apply deeper_line; discriminate|now apply (Hitem (S indent))].
    + f_equal; [apply deeper_line; discriminate|now apply (Hitem (S indent))].
  - destruct kvs as [|kv0 kvs0]; [reflexivity|].
    rewrite !out_lines_dict by discriminate. apply deeper_items.
    eapply Forall_impl; [exact IH|]. intros [k v] Hv.
    unfold dict_item_out. cbn [fst snd] in *.
    destruct v as [c|id truth|its|kvs]; cbn [map].
    + f_equal. apply deeper_line. apply append_nonempty. discriminate.
    + f_equal. apply deeper_line. apply append_nonempty. discriminate.
    + f_equal; [|now apply (Hv (S indent))].
      apply deeper_line. apply append_nonempty. discriminate.
    + f_equal; [|now apply (Hv (S indent))].
      apply deeper_line. apply append_nonempty. discriminate.
Qed.

(** X2.  Nesting only indents: when no key and no leaf of a dictionary or of
    a list prints with a newline, the lines of its text one level deeper are
    the lines of its text with two spaces before each line that is not
    empty. *)
Theorem deeper_is_indented (r : process) (o : pyval) (indent : nat) :
  is_container o = true -> single_line r o = true ->
  text_lines (fmt r o (S indent)) = map indented (text_lines (fmt r o indent)).
Proof.
  intros Hc Hone. rewrite !fmt_text_lines by exact Hone.
  now apply deeper_lines.
Qed.

Lemma deeper_is_indented_on_a_nested_value :
  text_lines (fmt gps_first
                (PDict [("name", PStr "drone");
                        ("sensors", PList [PObject 0 true; PDict []])]) 1) =
  map indented
      (text_lines (fmt gps_first
                     (PDict [("name", PStr "drone");
                             ("sensors", PList [PObject 0 true; PDict []])]) 0)).
Proof.
  apply (deeper_is_indented gps_first
           (PDict [("name", PStr "drone");
                   ("sensors", PList [PObject 0 true; PDict []])]) 0);
    reflexivity.
Defined.

Lemma prefix_append (a b : string) : String.prefix a (a +:+ b) = true.
Proof.
  induction a as [|x a IH]; [destruct b; reflexivity|].
  change (String x a +:+ b) with (String x (a +:+ b)). cbn [String.prefix].
  destruct (ascii_dec x x); [exact IH|congruence].
Qed.

Lemma prefix_of_append (a b line : string) :
  String.prefix (a +:+ b) line = true -> String.prefix a line = true.
Proof.
  revert line. induction a as [|x a IH]; intros line; [destruct line; reflexivity|].
  change (String x a +:+ b) with (String x (a +:+ b)).
  destruct line as [|y line]; cbn [String.prefix]; [trivial|].
  destruct (ascii_dec x y); [apply IH|trivial].
Qed.

Lemma padding_snoc (indent : nat) : padding (S indent) = padding indent +:+ "  ".
Proof.
  induction indent as [|n IH]; [reflexivity|].
  change (padding (S (S n))) with ("  " +:+ padding (S n)). rewrite IH at 1.
  cbn [padding]. now rewrite append_assoc.
Qed.

Lemma at_depth_padding (indent : nat) (rest : string) :
  at_depth indent (padding indent +:+ rest) = true.
Proof.
  unfold at_depth. pose proof (prefix_append (padding indent) rest) as H.
  destruct (padding indent +:+ rest); [reflexivity|exact H].
Qed.

Lemma at_depth_S (indent : nat) (line : string) :
  at_depth (S indent) line = true -> at_depth indent line = true.
Proof.
  unfold at_depth. destruct line as [|x line]; [trivial|].
  rewrite padding_snoc. apply prefix_of_append.
Qed.

Lemma out_lines_at_depth (r : process) (o : pyval) (indent : nat) :
  Forall (fun line => at_depth indent line = true) (out_lines r o indent).
Proof.
  revert indent.
  induction o as [c|id truth|items IH|kvs IH] using pyval_nested_ind;
    intros indent.
  - constructor; [apply at_depth_padding|constructor].
  - constructor; [apply at_depth_padding|constructor].
  - destruct items as [|item0 items0]; [repeat constructor|].
    rewrite out_lines_list by discriminate. apply Forall_flat_map.
    eapply Forall_impl; [exact IH|]. intros item Hitem.
    unfold list_item_out. destruct item as [c|id truth|its|kvs].
    + constructor; [apply at_depth_padding|constructor].
    + constructor; [apply at_depth_padding|constructor].
    + constructor; [apply at_depth_padding|].
      eapply Forall_impl; [apply (Hitem (S indent))|]. apply at_depth_S.
    + constructor; [apply at_depth_padding|].
      eapply Forall_impl; [apply (Hitem (S indent))|]. apply at_depth_S.
  - destruct kvs as [|kv0 kvs0]; [repeat constructor|].
    rewrite out_lines_dict by discriminate. apply Forall_flat_map.
    eapply Forall_impl; [exact IH|]. intros [k v] Hv.
    unfold dict_item_out. cbn [fst snd] in *.
    destruct v as [c|id truth|its|kvs].
    + constructor; [apply at_depth_padding|constructor].
    + constructor; [apply at_depth_padding|constructor].
    + constructor; [apply at_depth_padding|].
      eapply Forall_impl; [apply (Hv (S indent))|]. apply at_depth_S.
    + constructor; [apply at_depth_padding|].
      eapply Forall_impl; [apply (Hv (S indent))|]. apply at_depth_S.
Qed.

(** X3.  When no key and no leaf of a value prints with a newline, the lines
    of the text written for it at a depth are the lines [fmt] put together,
    and each of them is empty or starts with the padding of that depth, two
    spaces for each level. *)
Theorem lines_are_indented (r : process) (o : pyval) (indent : nat) :
  single_line r o = true ->
  text_lines (fmt r o indent) = out_lines r o indent /\
  Forall (fun line => at_depth indent line = true) (text_lines (fmt r o indent)) /\
  String.length (padding indent) = (2 * indent)%nat.
Proof.
  intros Hone. rewrite (fmt_text_lines r o indent Hone).
  split; [reflexivity|]. split; [apply out_lines_at_depth|].
  induction indent as [|n IH]; [reflexivity|].
  change (padding (S n)) with (String " " (String " " (padding n))).
  cbn [String.length]. lia.
Qed.

Lemma lines_are_indented_on_a_nested_value :
  Forall (fun line => at_depth 1 line = true)
         (text_lines (fmt gps_first
                        (PDict [("name", PStr "drone");
                                ("sensors", PList [PObject 0 true; PDict []])]) 1)).
Proof.
  apply (lines_are_indented gps_first
           (PDict [("name", PStr "drone");
                   ("sensors", PList [PObject 0 true; PDict []])]) 1).
  reflexivity.
Defined.

(** A string that holds a newline is written as it is: its second line does
    not start with the padding. *)
Example newline_in_a_string :
  single_line gps_first (PDict [("a", PStr (join newline ["x"; "y"]))]) = false /\
  text_lines (fmt gps_first (PDict [("a", PStr (join newline ["x"; "y"]))]) 1) =
    ["  a: x"; "y"] /\
  map (at_depth 1) ["  a: x"; "y"] = [true; false].
Proof. vm_compute. repeat split; reflexivity. Qed.

(** ** What the text does not record *)

Lemma erase_item (r : process) (indent : nat) (item : pyval) :
  (forall i : nat, fmt r (erase r item) i = fmt r item i) ->
  list_item_lines r indent (erase r item) = list_item_lines r indent item.
Proof.
  intros H. destruct item as [c|id truth|its|kvs]; [reflexivity|reflexivity| |].
  - unfold list_item_lines. cbn [erase]. f_equal. f_equal. apply (H (S indent)).
  - unfold list_item_lines. cbn [erase]. f_equal. f_equal. apply (H (S indent)).
Qed.

Lemma erase_entry (r : process) (indent : nat) (k : string) (v : pyval) :
  (forall i : nat, fmt r (erase r v) i = fmt r v i) ->
  dict_item_lines r indent (k, erase r v) = dict_item_lines r indent (k, v).
Proof.
  intros H. destruct v as [c|id truth|its|kvs]; [reflexivity|reflexivity| |].
  - unfold dict_item_lines. cbn [erase fst snd]. f_equal. f_equal.
    apply (H (S indent)).
  - unfold dict_item_lines. cbn [erase fst snd]. f_equal. f_equal.
    apply (H (S indent)).
Qed.

(** X4.  The text does not record the type of a scalar: a value and the value
    with every scalar replaced by the string it prints as have the same text,
    so the number 12 and the string 12, or [None] and the string None, are
    written alike.  And as the value of a key an empty list and an empty
    dictionary are written alike. *)
Theorem text_forgets_scalar_types (r : process) (o : pyval) (indent : nat) :
  fmt r (erase r o) indent = fmt r o indent /\
  (forall (k : string) (before after : list (string * pyval)),
     fmt r (PDict (before ++ (k, PList []) :: after)) indent =
     fmt r (PDict (before ++ (k, PDict []) :: after)) indent).
Proof.
  split.
  - revert indent.
    induction o as [c|id truth|items IH|kvs IH] using pyval_nested_ind;
      intros indent.
    + reflexivity.
    + reflexivity.
    + cbn [erase]. rewrite !fmt_list. f_equal.
      induction IH as [|item rest Hitem _ IHrest]; [reflexivity|].
      cbn [map flat_map]. now rewrite erase_item, IHrest.
    + cbn [erase]. rewrite !fmt_dict. f_equal.
      induction IH as [|[k v] rest Hv _ IHrest]; [reflexivity|].
      cbn [map flat_map]. cbn [snd] in Hv. now rewrite erase_entry, IHrest.
  - intros k before after. rewrite !fmt_dict, !flat_map_app. reflexivity.
Qed.

Example erase_number :
  erase gps_first (PInt 12) = PStr "12" /\ PInt 12 <> PStr "12".
Proof. split; [reflexivity|discriminate]. Qed.

(** ** Flat values *)

(** X11.  A dictionary that holds scalars only is written as one line
    [key: value] for each entry, in the order of the entries, and a list that
    holds scalars only as one line [- value] for each item; with no entry
    and no item the text is empty. *)
Theorem flat_values_are_one_line_each (r : process) (indent : nat) :
  (forall entries : list (string * scalar),
     fmt r (flat_dict entries) indent =
     join newline
       (map (fun '(k, c) => padding indent +:+ k +:+ ": " +:+ str c) entries)) /\
  (forall items : list scalar,
     fmt r (flat_list items) indent =
     join newline (map (fun c => padding indent +:+ "- " +:+ str c) items)).
Proof.
  split.
  - intros entries. unfold flat_dict. rewrite fmt_dict. f_equal.
    induction entries as [|[k c] rest IH]; [reflexivity|].
    cbn [map flat_map]. now rewrite IH.
  - intros items. unfold flat_list. rewrite fmt_list. f_equal.
    induction items as [|c rest IH]; [reflexivity|].
    cbn [map flat_map]. now rewrite IH.
Qed.

(** The writer on a small specification. *)
Example fmt_small :
  fmt gps_first
      (PDict [("a", PStr "x");
              ("b", PList [PStr "y"; PDict [("k", PInt 3)]; PList [PBool true]])]) 0
  = join newline ["a: x"; "b:"; "  - y"; "  -"; "    k: 3"; "  - "; "    - True"].
Proof. vm_compute. reflexivity. Qed.

(** ** The written file *)




(** When the write raises, nothing is printed. *)
Lemma failed_write_prints_nothing {files : Type} `{FileSystem files}
    (r : process) (spec : pyval) (out_path now : string) (s : files) :
  snd (write_text s out_path (fmt r spec 0)) = false ->
  snd (write_yaml_from_spec r spec out_path now s) = None.
Proof. unfold write_yaml_from_spec. intros ->. reflexivity. Qed.

Example nothing_printed_without_a_file :
  write_yaml_from_spec gps_first spec_with_a_set "spec.yaml" "t" tt = (tt, None).
Proof. reflexivity. Qed.



